(** * The downtime leaderboard page: [getData], [formatDowntime], [Home]

    A shallow embedding of [downtime-leaderboard/app/page.tsx].

    - A JavaScript [number] is an IEEE 754 binary64 value, modelled by the
      Standard Library's [spec_float] at precision 53 and maximal exponent
      1024.  Division is [SFdiv]; [%], [Math.floor], [Math.round] and the
      conversion of a number to a string follow the ECMAScript definitions
      and are written out below.
    - [getData] and [Home] are [async] functions: a settled promise is a
      [Settled] value, either [Fulfilled] or [Rejected] with the thrown
      value.  The network is part of an explicit [World].
    - The value [Home] returns is a React element tree, [ReactNode]. *)

From Stdlib Require Import ZArith String Ascii List Lia Bool.
From Stdlib Require Import Floats.SpecFloat.
From Stdlib Require Import Numbers.DecimalString.
Import ListNotations.

Local Open Scope string_scope.
Local Open Scope Z_scope.

(** ** JavaScript numbers *)

Module JsNumber.

Definition prec : Z := 53.
Definition emax : Z := 1024.

Definition number : Type := spec_float.

(** The numbers that exist at run time: canonical binary64 values. *)
Definition is_double (x : number) : bool := valid_binary prec emax x.

Definition NaN : number := S754_nan.
Definition Infinity : number := S754_infinity false.
Definition pos_zero : number := S754_zero false.
Definition neg_zero : number := S754_zero true.

(** The number of an integer: exact below [2^53], rounded to nearest, ties
    to even, above. *)
Definition of_Z (z : Z) : number := binary_normalize prec emax z 0 false.

(** The number nearest to the fraction [a / b] (ties to even): what a
    decimal literal such as [59.6] denotes. *)
Definition of_ratio (a b : positive) : number :=
  SFdiv prec emax (S754_finite false a 0) (S754_finite false b 0).

(** [x / y] *)
Definition div (x y : number) : number := SFdiv prec emax x y.

(** [x < y], false when either side is NaN. *)
Definition lt (x y : number) : bool := SFltb x y.

(** [x > y] *)
Definition gt (x y : number) : bool := SFltb y x.

(** [x >= y] *)
Definition ge (x y : number) : bool := SFleb y x.

(** [x % y]: the exact remainder of the truncating division, with the
    sign of the dividend (Number::remainder). *)
Definition rem (n d : number) : number :=
  match n, d with
  | S754_nan, _ | _, S754_nan => S754_nan
  | S754_infinity _, _ => S754_nan
  | _, S754_infinity _ => n
  | _, S754_zero _ => S754_nan
  | S754_zero _, _ => n
  | S754_finite sn mn en, S754_finite _ md ed =>
      let e0 := Z.min en ed in
      let N := Z.shiftl (Zpos mn) (en - e0) in
      let D := Z.shiftl (Zpos md) (ed - e0) in
      binary_normalize prec emax (cond_Zopp sn (N mod D)) e0 sn
  end.

(** [Math.floor x] *)
Definition floor (x : number) : number :=
  match x with
  | S754_finite s m e =>
      if 0 <=? e then x
      else
        let q := Z.shiftr (Zpos m) (- e) in
        let r := Z.land (Zpos m) (Z.ones (- e)) in
        if r =? 0 then x
        else if s then binary_normalize prec emax (- (q + 1)) 0 true
        else binary_normalize prec emax q 0 false
  | _ => x
  end.

(** [Math.round x]: the nearest integer, the one closer to +Infinity on a
    tie; a result of magnitude zero keeps the sign of [x]. *)
Definition round (x : number) : number :=
  match x with
  | S754_finite s m e =>
      if 0 <=? e then x
      else
        let q := Z.shiftr (Zpos m) (- e) in
        let r := Z.land (Zpos m) (Z.ones (- e)) in
        let half := Z.shiftl 1 (- e - 1) in
        if r =? 0 then x
        else if s then
          binary_normalize prec emax (- (if half <? r then q + 1 else q)) 0 true
        else
          binary_normalize prec emax (if half <=? r then q + 1 else q) 0 false
  | _ => x
  end.

(** *** Number::toString, radix 10 *)

Definition decimal (z : Z) : string :=
  NilZero.string_of_uint (N.to_uint (Z.to_N z)).

Definition digits10 (z : Z) : Z := Z.of_nat (String.length (decimal z)).

Fixpoint zeros (n : nat) : string :=
  match n with
  | O => ""
  | S n' => String "0" (zeros n')
  end.

(** [10^z], and 1 when [z] is negative. *)
Definition pow10 (z : Z) : Z := 10 ^ Z.max 0 z.

(** The fraction [num / den] a positive finite number stands for. *)
Definition fraction (m : positive) (e : Z) : Z * Z :=
  if 0 <=? e then (Z.shiftl (Zpos m) e, 1) else (Zpos m, Z.shiftl 1 (- e)).

(** [n] with [10^(n-1) <= num/den < 10^n]. *)
Definition decimal_exponent (num den : Z) : Z :=
  if den <=? num then digits10 (num / den)
  else digits10 (num * 10 ^ 400 / den) - 400.

(** Does the decimal [s * 10^(n-k)] denote the number [x]? *)
Definition denotes (s n k : Z) (x : number) : bool :=
  match s * pow10 (n - k), pow10 (k - n) with
  | Zpos a, Zpos b =>
      match of_ratio a b, x with
      | S754_finite false m1 e1, S754_finite _ m2 e2 =>
          Pos.eqb m1 m2 && Z.eqb e1 e2
      | _, _ => false
      end
  | _, _ => false
  end.

(** The [k]-digit candidates on either side of [num/den], and the choice
    among those that denote [x]: the closer one, the even one on a tie. *)
Definition candidate (num den n k : Z) (x : number) : option Z :=
  let A := num * pow10 (k - n) in
  let B := den * pow10 (n - k) in
  let lo := A / B in
  let r := A mod B in
  let hi := lo + 1 in
  match denotes lo n k x, denotes hi n k x with
  | true, true =>
      if 2 * r <? B then Some lo
      else if B <? 2 * r then Some hi
      else if Z.even lo then Some lo else Some hi
  | true, false => Some lo
  | false, true => Some hi
  | false, false => None
  end.

(** The least [k] that has a candidate, searching [k, k+1, ...]. *)
Fixpoint shortest (fuel : nat) (num den n k : Z) (x : number) : Z * Z :=
  match fuel with
  | O => (num * pow10 (k - n) / (den * pow10 (n - k)), k)
  | S fuel' =>
      match candidate num den n k x with
      | Some s => (s, k)
      | None => shortest fuel' num den n (k + 1) x
      end
  end.

Fixpoint strip_zeros_rev (s : list ascii) : list ascii :=
  match s with
  | "0"%char :: s' => strip_zeros_rev s'
  | _ => s
  end.

Definition strip_trailing_zeros (s : string) : string :=
  string_of_list_ascii
    (rev (strip_zeros_rev (rev (list_ascii_of_string s)))).

(** The layout of the digits [ds] of [s], with [k] digits and decimal
    exponent [n]. *)
Definition layout (ds : string) (k n : Z) : string :=
  if (k <=? n) && (n <=? 21) then
    ds ++ zeros (Z.to_nat (n - k))
  else if (0 <? n) && (n <=? 21) then
    substring 0 (Z.to_nat n) ds ++ "." ++
    substring (Z.to_nat n) (Z.to_nat (k - n)) ds
  else if (-6 <? n) && (n <=? 0) then
    "0." ++ zeros (Z.to_nat (- n)) ++ ds
  else
    let e := n - 1 in
    let sign := if e <? 0 then "-" else "+" in
    if k =? 1 then ds ++ "e" ++ sign ++ decimal (Z.abs e)
    else
      substring 0 1 ds ++ "." ++ substring 1 (Z.to_nat (k - 1)) ds ++
      "e" ++ sign ++ decimal (Z.abs e).

Definition toString_pos (m : positive) (e : Z) : string :=
  let '(num, den) := fraction m e in
  let n := decimal_exponent num den in
  let '(s, k) := shortest 17 num den n 1 (S754_finite false m e) in
  let n' := if s =? pow10 k then n + 1 else n in
  let ds := strip_trailing_zeros (decimal s) in
  layout ds (Z.of_nat (String.length ds)) n'.

Definition toString (x : number) : string :=
  match x with
  | S754_nan => "NaN"
  | S754_zero _ => "0"
  | S754_infinity s => if s then "-Infinity" else "Infinity"
  | S754_finite s m e =>
      if s then "-" ++ toString_pos m e else toString_pos m e
  end.

End JsNumber.

Import JsNumber.

(** ** [formatDowntime] *)

Definition formatDowntime (minutes : number) : string :=
  let hours := JsNumber.floor (div minutes (of_Z 60)) in
  let mins := JsNumber.round (rem minutes (of_Z 60)) in
  if gt hours (of_Z 0) then
    toString hours ++ "h " ++ toString mins ++ "m"
  else
    toString mins ++ "m".

(** ** The data model *)

Record Validator : Type := {
  name : string;
  website : option string;     (* [string | null] *)
  incidents : number;
  minutes : number
}.

Record Metadata : Type := {
  total_validators : number;
  time_window : string;
  as_of : string
}.

Record ApiResponse : Type := {
  data : list Validator;
  metadata : Metadata
}.

(** ** Promises, thrown values and the network *)

(** What a [throw] or a rejected promise carries: an object for which
    [err instanceof Error] holds, with its [message], or any other value. *)
Inductive Thrown : Type :=
  | ErrorObject (class message : string)
  | OtherValue (description : string).

Inductive Settled (A : Type) : Type :=
  | Fulfilled (value : A)
  | Rejected (reason : Thrown).
Arguments Fulfilled {A} value.
Arguments Rejected {A} reason.

(** A fetch [Response]: its HTTP status and what [response.json()] settles
    to, the parsed body ([None] is the JSON value [null]) or the rejection
    of a body that does not parse. *)
Record Response : Type := {
  status : Z;
  json : Settled (option ApiResponse)
}.

(** [response.ok]: the status is in the range 200 to 299. *)
Definition ok (r : Response) : bool := (200 <=? status r) && (status r <=? 299).

(** Everything the page could read from its surroundings: the network, the
    clock ([Date.now()]) and the source of [Math.random()]. *)
Record World : Type := {
  fetch : string -> Settled Response;
  clock : number;
  entropy : list number
}.

Definition endpoint : string :=
  "https://api-service-321368118490.australia-southeast1.run.app/api/downtime-leaderboard".

(** ** [getData] *)

(** The three ways the body of [getData] completes. *)
Inductive Completion : Type :=
  | AwaitRejected (reason : Thrown)   (* [await fetch(...)] rejected *)
  | Threw (reason : Thrown)           (* the [throw] statement of the body *)
  | Returned (p : Settled (option ApiResponse)).   (* [return response.json()] *)

Definition getData_body (w : World) : Completion :=
  match fetch w endpoint with
  | Rejected reason => AwaitRejected reason
  | Fulfilled response =>
      if negb (ok response) then Threw (ErrorObject "Error" "Failed to fetch data")
      else Returned (json response)
  end.

(** The promise an [async] function returns for a completion of its body. *)
Definition settle (c : Completion) : Settled (option ApiResponse) :=
  match c with
  | AwaitRejected reason => Rejected reason
  | Threw reason => Rejected reason
  | Returned p => p
  end.

Definition getData (w : World) : Settled (option ApiResponse) :=
  settle (getData_body w).

(** ** React elements *)

#[warnings="-register-all"]
Inductive ReactNode : Type :=
  | Text (s : string)
  | Num (n : number)
  | Element (tag : string) (key : option nat) (props : list (string * string))
            (children : list ReactNode).

(** [<tag className="c">children</tag>] *)
Definition el (tag c : string) (children : list ReactNode) : ReactNode :=
  Element tag None [("className", c)] children.

(** [<tag>children</tag>] *)
Definition el0 (tag : string) (children : list ReactNode) : ReactNode :=
  Element tag None [] children.

(** [Array.prototype.map] with the index passed to the callback. *)
Fixpoint map_from {A B : Type} (f : A -> nat -> B) (i : nat) (l : list A) : list B :=
  match l with
  | [] => []
  | a :: l' => f a i :: map_from f (S i) l'
  end.

Definition array_map {A B : Type} (f : A -> nat -> B) (l : list A) : list B :=
  map_from f 0%nat l.

(** ** [Home] *)

(** Truthiness of a [string | null]: neither [null] nor the empty string. *)
Definition truthy (s : option string) : bool :=
  match s with
  | Some s' => negb (String.eqb s' "")
  | None => false
  end.

(** [s || fallback] *)
Definition or_else (s : option string) (fallback : string) : string :=
  match s with
  | Some s' => if String.eqb s' "" then fallback else s'
  | None => fallback
  end.

Definition ErrorView (error : option string) : ReactNode :=
  el "div" "container"
    [ el "div" "error"
        [ Text "Error loading data: "; Text (or_else error "No data available") ] ].

Definition NoWebsite : ReactNode := el "span" "no-website" [ Text "N/A" ].

Definition WebsiteLink (url : string) : ReactNode :=
  Element "a" None
    [ ("href", url);
      ("target", "_blank");
      ("rel", "noopener noreferrer");
      ("className", "website-link") ]
    [ Text url ].

(** [validator.website ? <a ...> : <span ...>]: [null] and the empty
    string are the falsy values of a [string | null]. *)
Definition WebsiteCell (v : Validator) : ReactNode :=
  el0 "td"
    [ match website v with
      | Some url => if String.eqb url "" then NoWebsite else WebsiteLink url
      | None => NoWebsite
      end ].

(** The row of [validator] at position [index] of [data]; [index + 1] is
    exact, an array index being an integer below [2^32]. *)
Definition Row (validator : Validator) (index : nat) : ReactNode :=
  Element "tr" (Some index) []
    [ el "td" "rank" [ Num (of_Z (Z.of_nat index + 1)) ];
      el "td" "validator-name" [ Text (name validator) ];
      WebsiteCell validator;
      el "td" "downtime" [ Text (formatDowntime (minutes validator)) ];
      el "td" "incidents" [ Num (incidents validator) ] ].

Definition MetadataItem (label : string) (value : ReactNode) : ReactNode :=
  el "div" "metadata-item"
    [ el "span" "metadata-label" [ Text label ];
      el "span" "metadata-value" [ value ] ].

Definition SuccessView (d : ApiResponse) : ReactNode :=
  el "div" "container"
    [ el0 "header"
        [ el0 "h1" [ Text "SOL Validator Downtime Leaderboard" ];
          el "div" "metadata"
            [ MetadataItem "Total Validators" (Num (total_validators (metadata d)));
              MetadataItem "Time Window" (Text (time_window (metadata d)));
              MetadataItem "Last Updated" (Text (as_of (metadata d))) ] ];
      el "div" "table-container"
        [ el0 "table"
            [ el0 "thead"
                [ el0 "tr"
                    [ el0 "th" [ Text "#" ];
                      el0 "th" [ Text "Validator Name" ];
                      el0 "th" [ Text "Website" ];
                      el0 "th" [ Text "Downtime" ];
                      el0 "th" [ Text "Incidents" ] ] ];
              el0 "tbody" (array_map Row (data d)) ] ];
      el "div" "refresh-info"
        [ Text "Data is updated at build time. Rebuilds happen automatically on each push to main branch." ] ].

(** [err instanceof Error ? err.message : 'An error occurred'] *)
Definition caught_message (reason : Thrown) : string :=
  match reason with
  | ErrorObject _ message => message
  | OtherValue _ => "An error occurred"
  end.

(** [Home]: the [try]/[catch] around [await getData()], then the test
    [error || !data]. *)
Definition Home (w : World) : Settled ReactNode :=
  let '(data, error) :=
    match getData w with
    | Fulfilled d => (d, None)
    | Rejected err => (None, Some (caught_message err))
    end in
  match truthy error, data with
  | false, Some d => Fulfilled (SuccessView d)
  | _, _ => Fulfilled (ErrorView error)
  end.

(** ** Reading an element tree *)

Fixpoint elements_by_tag (tag : string) (n : ReactNode) : list ReactNode :=
  match n with
  | Element t _ _ cs =>
      (if String.eqb t tag then [n] else []) ++ flat_map (elements_by_tag tag) cs
  | _ => []
  end.

Fixpoint elements_by_class (c : string) (n : ReactNode) : list ReactNode :=
  match n with
  | Element _ _ ps cs =>
      (if existsb (fun p => String.eqb (fst p) "className" && String.eqb (snd p) c) ps
       then [n] else [])
      ++ flat_map (elements_by_class c) cs
  | _ => []
  end.

Definition children_of (n : ReactNode) : list ReactNode :=
  match n with
  | Element _ _ _ cs => cs
  | _ => []
  end.

(** The text a node displays: a number child is shown by its string. *)
Fixpoint text_content (n : ReactNode) : string :=
  match n with
  | Text s => s
  | Num x => toString x
  | Element _ _ _ cs => String.concat "" (map text_content cs)
  end.

(** The rows of the table body. *)
Definition body_rows (page : ReactNode) : list ReactNode :=
  flat_map children_of (elements_by_tag "tbody" page).

(** The cells of a row, by column. *)
Definition rank_cell (row : ReactNode) : option ReactNode :=
  nth_error (children_of row) 0.

Definition name_cell (row : ReactNode) : option ReactNode :=
  nth_error (children_of row) 1.

Definition website_cell (row : ReactNode) : option ReactNode :=
  nth_error (children_of row) 2.

(** ** Statements about the page *)

(** The text shown after "Error loading data: " for a failure: its message,
    or a generic string when it has none. *)
Definition shown_message (reason : Thrown) : string :=
  match reason with
  | ErrorObject _ message =>
      if String.eqb message "" then "No data available" else message
  | OtherValue _ => "An error occurred"
  end.

(** The claim that a malformed body escapes the page as a rejection. *)
Definition parse_failure_escapes : Prop :=
  forall (w : World) (r : Response) (reason : Thrown),
    fetch w endpoint = Fulfilled r -> ok r = true -> json r = Rejected reason ->
    Home w = Rejected reason.

(** ** Sample inputs *)

Module Samples.

Definition md : Metadata :=
  {| total_validators := of_Z 2; time_window := "30 days"; as_of := "2025-01-01T00:00:00Z" |}.

Definition alice : Validator :=
  {| name := "alice"; website := Some "https://alice.example";
     incidents := of_Z 3; minutes := of_Z 125 |}.

Definition bob : Validator :=
  {| name := "bob"; website := None; incidents := of_Z 1; minutes := of_ratio 596 10 |}.

Definition carol : Validator :=
  {| name := "carol"; website := Some ""; incidents := of_Z 0; minutes := of_Z 0 |}.

Definition board : ApiResponse := {| data := [alice; bob; carol]; metadata := md |}.

Definition empty_board : ApiResponse := {| data := []; metadata := md |}.

Definition syntax_error : Thrown :=
  ErrorObject "SyntaxError" "Unexpected token < in JSON at position 0".

Definition resp_ok : Response := {| status := 200; json := Fulfilled (Some board) |}.
Definition resp_empty : Response := {| status := 200; json := Fulfilled (Some empty_board) |}.
Definition resp_503 : Response := {| status := 503; json := Fulfilled (Some board) |}.
Definition resp_malformed : Response := {| status := 200; json := Rejected syntax_error |}.

(** A world that answers every request with [r]. *)
Definition world_of (r : Settled Response) (t : number) (rnd : list number) : World :=
  {| fetch := fun _ => r; clock := t; entropy := rnd |}.

Definition w_ok : World := world_of (Fulfilled resp_ok) (of_Z 0) [].
Definition w_empty : World := world_of (Fulfilled resp_empty) (of_Z 0) [].
Definition w_503 : World := world_of (Fulfilled resp_503) (of_Z 0) [].
Definition w_malformed : World := world_of (Fulfilled resp_malformed) (of_Z 0) [].
Definition w_offline : World :=
  world_of (Rejected (ErrorObject "TypeError" "fetch failed")) (of_Z 0) [].

(** The same answer at the endpoint as [w_ok], another clock, other random
    numbers and other answers elsewhere. *)
Definition w_ok_later : World :=
  {| fetch := fun url => if String.eqb url endpoint then Fulfilled resp_ok
                         else Rejected (OtherValue "unreachable");
     clock := of_Z 1700000000000;
     entropy := [of_ratio 1 3; of_ratio 7 9] |}.

End Samples.


(** ** Invariants of rounding *)

(** A positive [m * 2^e] is at least 1, respectively below 1. *)
Definition at_least_one (m e : Z) : Prop := 0 < m /\ (0 <= e \/ 2 ^ (- e) <= m).

Definition below_one (m e : Z) : Prop := 0 <= m /\ e < 0 /\ m < 2 ^ (- e).

(** The mantissa of a shift record approximates [A / W] from below, and
    the round bit is set only from the middle of the interval upwards. *)
Definition shr_inv (A W : Z) (r : shr_record) : Prop :=
  0 <= shr_m r /\ shr_m r * W <= A
  /\ (shr_r r = true -> (2 * shr_m r + 1) * W <= 2 * A).

(** A location from the middle of the interval upwards. *)
Definition upper_half (l : location) : bool :=
  match l with
  | loc_Inexact Eq | loc_Inexact Gt => true
  | _ => false
  end.

(** The shift [shr_fexp] applies to a mantissa [m] at exponent [e]. *)
Definition shift_of (m e : Z) : Z := Z.max 0 (fexp prec emax (Zdigits2 m + e) - e).

(** The number 60, the divisor of [formatDowntime], and its mantissa. *)
Definition sixty : number := of_Z 60.

Definition m60 : positive := 8444249301319680.

(** A number whose sign bit, if it has one, is [s]. *)
Definition has_sign (s : bool) (v : number) : Prop :=
  match v with
  | S754_zero s' | S754_infinity s' | S754_finite s' _ _ => s' = s
  | S754_nan => True
  end.

(** A number that is shown without a minus sign and, when it is finite and
    not zero, is at least 1. *)
Definition shown_unsigned (v : number) : Prop :=
  match v with
  | S754_finite s m e => s = false /\ at_least_one (Zpos m) e
  | S754_infinity s => s = false
  | S754_zero _ | S754_nan => True
  end.

(** ** Characters of a string *)

Fixpoint contains (c : ascii) (s : string) : bool :=
  match s with
  | EmptyString => false
  | String a s' => Ascii.eqb a c || contains c s'
  end.

Fixpoint all_in (P : ascii -> bool) (s : string) : bool :=
  match s with
  | EmptyString => true
  | String a s' => P a && all_in P s'
  end.

Definition is_digit (c : ascii) : bool :=
  (48 <=? nat_of_ascii c)%nat && (nat_of_ascii c <=? 57)%nat.

(** The characters of a number shown without a sign, and of any number. *)
Definition unsigned_char (c : ascii) : bool :=
  is_digit c || Ascii.eqb c "." || Ascii.eqb c "e" || Ascii.eqb c "+".

Definition number_char (c : ascii) : bool :=
  unsigned_char c || Ascii.eqb c "-".

(** ** The shapes of a formatted downtime *)

(** ["{h}h {m}m"] and ["{m}m"], for numbers [h] and [m] that are not
    negative. *)
Definition hours_minutes_shape (s : string) : Prop :=
  exists h m : number,
    lt h (of_Z 0) = false /\ lt m (of_Z 0) = false
    /\ s = toString h ++ "h " ++ toString m ++ "m".

Definition minutes_shape (s : string) : Prop :=
  exists m : number, lt m (of_Z 0) = false /\ s = toString m ++ "m".

(** ** The root layout *)

(** [RootLayout({ children })] of [app/layout.tsx]:
    [<html lang="en"><body>{children}</body></html>]. *)
Definition RootLayout (children : list ReactNode) : ReactNode :=
  Element "html" None [("lang", "en")] [ Element "body" None [] children ].

(** The [key] of an element. *)
Definition key_of (n : ReactNode) : option nat :=
  match n with
  | Element _ k _ _ => k
  | _ => None
  end.

(** The cells of the downtime and incidents columns. *)
Definition downtime_cell (row : ReactNode) : option ReactNode :=
  nth_error (children_of row) 3.

Definition incidents_cell (row : ReactNode) : option ReactNode :=
  nth_error (children_of row) 4.

(** ** Further sample inputs *)

Module MoreSamples.

(** A response whose body is the JSON value [null]. *)
Definition resp_null : Response := {| status := 200; json := Fulfilled None |}.

Definition w_null : World := Samples.world_of (Fulfilled resp_null) (of_Z 0) [].

(** A 404 whose body would parse. *)
Definition resp_404 : Response := {| status := 404; json := Fulfilled (Some Samples.board) |}.

Definition w_404 : World := Samples.world_of (Fulfilled resp_404) (of_Z 0) [].

(** A board whose [total_validators] differs from the length of [data]. *)
Definition md_7 : Metadata :=
  {| total_validators := of_Z 7; time_window := "7 days"; as_of := "yesterday" |}.

Definition board_7 : ApiResponse :=
  {| data := [Samples.alice; Samples.bob]; metadata := md_7 |}.

Definition resp_7 : Response := {| status := 200; json := Fulfilled (Some board_7) |}.

Definition w_7 : World := Samples.world_of (Fulfilled resp_7) (of_Z 0) [].

End MoreSamples.

(** The value of an attribute of an element. *)
Definition attribute (a : string) (n : ReactNode) : option string :=
  match n with
  | Element _ _ ps _ =>
      option_map snd (find (fun p => String.eqb (fst p) a) ps)
  | _ => None
  end.
(** * Properties *)

(** ** [getData] *)

Lemma getData_body_cases (w : World) :
  match fetch w endpoint with
  | Rejected reason => getData_body w = AwaitRejected reason
  | Fulfilled r =>
      if ok r then getData_body w = Returned (json r)
      else getData_body w = Threw (ErrorObject "Error" "Failed to fetch data")
  end.
Proof.
  unfold getData_body.
  destruct (fetch w endpoint) as [r | reason]; [ | reflexivity ].
  destruct (ok r); reflexivity.
Qed.

(** C3: the [throw] of [getData] runs exactly when the response has a
    non-success status, and what it throws is the error "Failed to fetch
    data"; on a success status the body returns [response.json()], so the
    promise settles as the parse does. *)
Theorem getData_single_error_path (w : World) :
  ((exists reason, getData_body w = Threw reason) <->
   (exists r, fetch w endpoint = Fulfilled r /\ ok r = false))
  /\ (forall reason, getData_body w = Threw reason ->
        reason = ErrorObject "Error" "Failed to fetch data")
  /\ (forall r, fetch w endpoint = Fulfilled r -> ok r = false ->
        getData w = Rejected (ErrorObject "Error" "Failed to fetch data"))
  /\ (forall r, fetch w endpoint = Fulfilled r -> ok r = true ->
        getData_body w = Returned (json r) /\ getData w = json r).
Proof.
  pose proof (getData_body_cases w) as H.
  unfold getData.
  destruct (fetch w endpoint) as [r | reason0] eqn:Hf.
  - destruct (ok r) eqn:Hok.
    + repeat split.
      * intros [reason Hr]. rewrite H in Hr. discriminate.
      * intros [r' [Hr' Hk]]. injection Hr' as <-. congruence.
      * intros reason Hr. rewrite H in Hr. discriminate.
      * intros r' Hr' Hk. injection Hr' as <-. congruence.
      * injection H0 as <-. exact H.
      * injection H0 as <-. rewrite H. reflexivity.
    + repeat split.
      * intros _. exists r. split; [ reflexivity | exact Hok ].
      * intros _. exists (ErrorObject "Error" "Failed to fetch data"). exact H.
      * intros reason Hr. rewrite H in Hr. injection Hr as <-. reflexivity.
      * intros r' _ _. rewrite H. reflexivity.
      * injection H0 as <-. congruence.
      * injection H0 as <-. congruence.
  - repeat split.
    + intros [reason Hr]. rewrite H in Hr. discriminate.
    + intros [r [Hr _]]. discriminate.
    + intros reason Hr. rewrite H in Hr. discriminate.
    + intros r Hr. discriminate.
    + discriminate.
    + discriminate.
Qed.

Lemma getData_single_error_path_witness :
  getData Samples.w_503 = Rejected (ErrorObject "Error" "Failed to fetch data")
  /\ getData Samples.w_ok = Fulfilled (Some Samples.board).
Proof.
  split.
  - apply (proj1 (proj2 (proj2 (getData_single_error_path Samples.w_503)))
             Samples.resp_503); reflexivity.
  - apply (proj2 (proj2 (proj2 (getData_single_error_path Samples.w_ok)))
             Samples.resp_ok); reflexivity.
Defined.

(** ** [Home] *)

Lemma Home_rejected (w : World) (reason : Thrown) :
  getData w = Rejected reason ->
  Home w = Fulfilled (ErrorView (Some (caught_message reason))).
Proof.
  intros H. unfold Home. rewrite H. simpl.
  destruct reason as [c m | d]; simpl; [ | reflexivity ].
  destruct (String.eqb m ""); reflexivity.
Qed.

Lemma Home_null (w : World) :
  getData w = Fulfilled None -> Home w = Fulfilled (ErrorView None).
Proof. intros H. unfold Home. rewrite H. reflexivity. Qed.

Lemma Home_data (w : World) (d : ApiResponse) :
  getData w = Fulfilled (Some d) -> Home w = Fulfilled (SuccessView d).
Proof. intros H. unfold Home. rewrite H. reflexivity. Qed.

Lemma getData_success (w : World) (r : Response) :
  fetch w endpoint = Fulfilled r -> ok r = true -> getData w = json r.
Proof.
  intros Hf Hok. unfold getData, getData_body. rewrite Hf, Hok. reflexivity.
Qed.

Lemma Home_success (w : World) (r : Response) (d : ApiResponse) :
  fetch w endpoint = Fulfilled r -> ok r = true -> json r = Fulfilled (Some d) ->
  Home w = Fulfilled (SuccessView d).
Proof.
  intros Hf Hok Hj. apply Home_data. rewrite (getData_success w r Hf Hok). exact Hj.
Qed.

(** C4, as stated, fails: with status 200 and a body that does not parse,
    [Home] is fulfilled with the error view, not rejected. *)
Lemma malformed_json_is_caught :
  fetch Samples.w_malformed endpoint = Fulfilled Samples.resp_malformed
  /\ ok Samples.resp_malformed = true
  /\ json Samples.resp_malformed = Rejected Samples.syntax_error
  /\ Home Samples.w_malformed
     = Fulfilled (ErrorView (Some "Unexpected token < in JSON at position 0"))
  /\ ~ parse_failure_escapes.
Proof.
  repeat split.
  intros H.
  specialize (H Samples.w_malformed Samples.resp_malformed Samples.syntax_error
                eq_refl eq_refl eq_refl).
  discriminate H.
Qed.

(** C4, amended: [getData] does not handle the parse failure, its promise
    is rejected with it; the [try]/[catch] of [Home] catches it, and [Home]
    is fulfilled with the error view showing the message of the failure. *)
Theorem malformed_json_reaches_error_view
    (w : World) (r : Response) (reason : Thrown) :
  fetch w endpoint = Fulfilled r -> ok r = true -> json r = Rejected reason ->
  getData_body w = Returned (Rejected reason)
  /\ getData w = Rejected reason
  /\ Home w = Fulfilled (ErrorView (Some (caught_message reason)))
  /\ forall reason', Home w <> Rejected reason'.
Proof.
  intros Hf Hok Hj.
  assert (Hg : getData w = Rejected reason).
  { rewrite (getData_success w r Hf Hok). exact Hj. }
  repeat split.
  - unfold getData_body. rewrite Hf, Hok, Hj. reflexivity.
  - exact Hg.
  - apply Home_rejected. exact Hg.
  - intros reason'. rewrite (Home_rejected w reason Hg). discriminate.
Qed.

Lemma malformed_json_reaches_error_view_witness :
  Home Samples.w_malformed
  = Fulfilled (ErrorView (Some "Unexpected token < in JSON at position 0")).
Proof.
  exact (proj1 (proj2 (proj2
    (malformed_json_reaches_error_view Samples.w_malformed Samples.resp_malformed
       Samples.syntax_error eq_refl eq_refl eq_refl)))).
Defined.

Lemma or_else_caught (reason : Thrown) :
  or_else (Some (caught_message reason)) "No data available" = shown_message reason.
Proof. destruct reason; reflexivity. Qed.

Lemma shown_message_nonempty (reason : Thrown) : shown_message reason <> "".
Proof.
  destruct reason as [c m | d]; simpl; [ | discriminate ].
  destruct (String.eqb m "") eqn:E; [ discriminate | ].
  intros ->. discriminate.
Qed.

(** C5: whatever makes retrieval fail, [Home] is fulfilled with the error
    view: one element of class "error", whose text is "Error loading data: "
    followed by the message of the failure or by a generic string, and no
    [table] element. *)
Theorem retrieval_failure_renders_error (w : World) (reason : Thrown) :
  getData w = Rejected reason ->
  exists page banner,
    Home w = Fulfilled page
    /\ elements_by_class "error" page = [banner]
    /\ text_content banner = "Error loading data: " ++ shown_message reason
    /\ shown_message reason <> ""
    /\ (forall c m, reason = ErrorObject c m -> m <> "" -> shown_message reason = m)
    /\ text_content page <> ""
    /\ elements_by_tag "table" page = []
    /\ elements_by_tag "tbody" page = []
    /\ elements_by_tag "tr" page = [].
Proof.
  intros H.
  exists (ErrorView (Some (caught_message reason))).
  exists (el "div" "error"
            [ Text "Error loading data: "; Text (shown_message reason) ]).
  rewrite (Home_rejected w reason H).
  unfold ErrorView. rewrite or_else_caught.
  repeat split; try reflexivity.
  - apply shown_message_nonempty.
  - intros c m -> Hm. simpl.
    destruct (String.eqb_spec m ""); [ contradiction | reflexivity ].
  - discriminate.
Qed.

Lemma retrieval_failure_renders_error_witness :
  exists page banner,
    Home Samples.w_503 = Fulfilled page
    /\ elements_by_class "error" page = [banner]
    /\ text_content banner = "Error loading data: Failed to fetch data"
    /\ elements_by_tag "table" page = [].
Proof.
  destruct (retrieval_failure_renders_error Samples.w_503
              (ErrorObject "Error" "Failed to fetch data") eq_refl)
    as [page [banner [H1 [H2 [H3 [_ [_ [_ [H4 _]]]]]]]]].
  exists page, banner. repeat split; assumption.
Defined.

(** *** The rows of the table *)

Lemma map_from_length {A B : Type} (f : A -> nat -> B) (l : list A) (i : nat) :
  length (map_from f i l) = length l.
Proof.
  revert i. induction l as [ | a l IH ]; intros i; simpl; [ reflexivity | ].
  rewrite IH. reflexivity.
Qed.

Lemma map_from_nth_error {A B : Type} (f : A -> nat -> B) (l : list A) (i k : nat) :
  nth_error (map_from f i l) k
  = option_map (fun a => f a (i + k)%nat) (nth_error l k).
Proof.
  revert i k. induction l as [ | a l IH ]; intros i k.
  - destruct k; reflexivity.
  - destruct k as [ | k ]; simpl.
    + rewrite Nat.add_0_r. reflexivity.
    + rewrite IH. rewrite Nat.add_succ_comm. reflexivity.
Qed.

Lemma array_map_nth_error {A B : Type} (f : A -> nat -> B) (l : list A) (k : nat) :
  nth_error (array_map f l) k = option_map (fun a => f a k) (nth_error l k).
Proof. unfold array_map. rewrite map_from_nth_error. reflexivity. Qed.

Lemma Row_no_tbody (v : Validator) (i : nat) : elements_by_tag "tbody" (Row v i) = [].
Proof.
  unfold Row, WebsiteCell.
  destruct (website v) as [ url | ]; [ destruct (String.eqb url "") | ]; reflexivity.
Qed.



Lemma Row_no_metadata_value (v : Validator) (i : nat) :
  elements_by_class "metadata-value" (Row v i) = [].
Proof.
  unfold Row, WebsiteCell.
  destruct (website v) as [ url | ]; [ destruct (String.eqb url "") | ]; reflexivity.
Qed.

Lemma flat_map_rows_nil (g : ReactNode -> list ReactNode) (l : list Validator) (i : nat) :
  (forall v k, g (Row v k) = []) -> flat_map g (map_from Row i l) = [].
Proof.
  intros Hg. revert i. induction l as [ | v l IH ]; intros i; simpl; [ reflexivity | ].
  rewrite Hg, IH. reflexivity.
Qed.

Lemma body_rows_SuccessView (d : ApiResponse) :
  body_rows (SuccessView d) = array_map Row (data d).
Proof.
  unfold body_rows, SuccessView, array_map. simpl.
  rewrite (flat_map_rows_nil (elements_by_tag "tbody")) by apply Row_no_tbody.
  simpl. apply app_nil_r.
Qed.



Lemma metadata_values_SuccessView (d : ApiResponse) :
  map children_of (elements_by_class "metadata-value" (SuccessView d))
  = [ [ Num (total_validators (metadata d)) ];
      [ Text (time_window (metadata d)) ];
      [ Text (as_of (metadata d)) ] ].
Proof.
  unfold SuccessView, array_map. simpl.
  rewrite (flat_map_rows_nil (elements_by_class "metadata-value"))
    by apply Row_no_metadata_value.
  reflexivity.
Qed.

(** C6: a successful response with an empty [data] and some [metadata]
    gives the success view, not the error view: one table, no body row, and
    the three metadata values are the children of the header's value
    elements as they came in. *)
Theorem empty_data_renders_empty_table (w : World) (r : Response) (m : Metadata) :
  fetch w endpoint = Fulfilled r -> ok r = true ->
  json r = Fulfilled (Some {| data := []; metadata := m |}) ->
  exists page,
    Home w = Fulfilled page
    /\ elements_by_class "error" page = []
    /\ length (elements_by_tag "table" page) = 1%nat
    /\ elements_by_tag "tbody" page = [ el0 "tbody" [] ]
    /\ body_rows page = []
    /\ map children_of (elements_by_class "metadata-value" page)
       = [ [ Num (total_validators m) ]; [ Text (time_window m) ]; [ Text (as_of m) ] ].
Proof.
  intros Hf Hok Hj.
  exists (SuccessView {| data := []; metadata := m |}).
  rewrite (Home_success w r _ Hf Hok Hj).
  repeat split.
Qed.

Lemma empty_data_renders_empty_table_witness :
  exists page,
    Home Samples.w_empty = Fulfilled page
    /\ body_rows page = []
    /\ map children_of (elements_by_class "metadata-value" page)
       = [ [ Num (of_Z 2) ]; [ Text "30 days" ]; [ Text "2025-01-01T00:00:00Z" ] ].
Proof.
  destruct (empty_data_renders_empty_table Samples.w_empty Samples.resp_empty
              Samples.md eq_refl eq_refl eq_refl)
    as [page [H1 [_ [_ [_ [H2 H3]]]]]].
  exists page. repeat split; assumption.
Defined.

(** C7: the body of the table has one row per validator, in the order of
    [data]; the row at position [i] (from 0) is the row of the validator at
    position [i], and its rank cell holds the number [i + 1], whatever the
    validator's fields are. *)
Theorem rows_follow_data_order (w : World) (r : Response) (d : ApiResponse) :
  fetch w endpoint = Fulfilled r -> ok r = true -> json r = Fulfilled (Some d) ->
  exists page,
    Home w = Fulfilled page
    /\ length (body_rows page) = length (data d)
    /\ (forall i v, nth_error (data d) i = Some v ->
          exists row,
            nth_error (body_rows page) i = Some row
            /\ row = Row v i
            /\ name_cell row = Some (el "td" "validator-name" [ Text (name v) ])
            /\ rank_cell row = Some (el "td" "rank" [ Num (of_Z (Z.of_nat i + 1)) ])
            /\ forall v', rank_cell (Row v' i) = rank_cell row)
    /\ (forall i row, nth_error (body_rows page) i = Some row ->
          exists v, nth_error (data d) i = Some v /\ row = Row v i).
Proof.
  intros Hf Hok Hj.
  exists (SuccessView d).
  rewrite (Home_success w r d Hf Hok Hj), body_rows_SuccessView.
  split; [ reflexivity | ].
  split; [ apply map_from_length | ].
  split.
  - intros i v Hv. exists (Row v i).
    rewrite array_map_nth_error, Hv. repeat split.
  - intros i row Hrow. rewrite array_map_nth_error in Hrow.
    destruct (nth_error (data d) i) as [ v | ]; [ | discriminate ].
    exists v. split; [ reflexivity | ]. simpl in Hrow. congruence.
Qed.

Lemma rows_follow_data_order_witness :
  exists page,
    Home Samples.w_ok = Fulfilled page
    /\ map rank_cell (body_rows page)
       = [ Some (el "td" "rank" [ Num (of_Z 1) ]);
           Some (el "td" "rank" [ Num (of_Z 2) ]);
           Some (el "td" "rank" [ Num (of_Z 3) ]) ]
    /\ map name_cell (body_rows page)
       = [ Some (el "td" "validator-name" [ Text "alice" ]);
           Some (el "td" "validator-name" [ Text "bob" ]);
           Some (el "td" "validator-name" [ Text "carol" ]) ].
Proof.
  destruct (rows_follow_data_order Samples.w_ok Samples.resp_ok Samples.board
              eq_refl eq_refl eq_refl) as [page [H1 _]].
  exists page. split; [ exact H1 | ].
  injection H1 as <-. split; reflexivity.
Defined.

(** *** The website cell *)

Lemma website_cell_Row (v : Validator) (i : nat) :
  website_cell (Row v i) = Some (WebsiteCell v).
Proof. reflexivity. Qed.

Lemma falsy_website_cell (v : Validator) (i : nat) :
  truthy (website v) = false ->
  website_cell (Row v i) = Some (el0 "td" [ el "span" "no-website" [ Text "N/A" ] ])
  /\ elements_by_tag "a" (Row v i) = [].
Proof.
  intros H. unfold website_cell, Row, WebsiteCell. simpl.
  destruct (website v) as [ url | ]; simpl in *.
  - destruct (String.eqb url ""); [ | discriminate ]. split; reflexivity.
  - split; reflexivity.
Qed.

Lemma row_of_position (w : World) (r : Response) (d : ApiResponse) (i : nat) (v : Validator) :
  fetch w endpoint = Fulfilled r -> ok r = true -> json r = Fulfilled (Some d) ->
  nth_error (data d) i = Some v ->
  Home w = Fulfilled (SuccessView d)
  /\ nth_error (body_rows (SuccessView d)) i = Some (Row v i).
Proof.
  intros Hf Hok Hj Hv. split.
  - exact (Home_success w r d Hf Hok Hj).
  - rewrite body_rows_SuccessView, array_map_nth_error, Hv. reflexivity.
Qed.

(** C8: for a validator whose [website] is [null], the website cell of
    its row holds the [span] with the text "N/A", and the row has no [a]
    element. *)
Theorem null_website_renders_placeholder
    (w : World) (r : Response) (d : ApiResponse) (i : nat) (v : Validator) :
  fetch w endpoint = Fulfilled r -> ok r = true -> json r = Fulfilled (Some d) ->
  nth_error (data d) i = Some v ->
  website v = None ->
  exists page row cell,
    Home w = Fulfilled page
    /\ nth_error (body_rows page) i = Some row
    /\ website_cell row = Some cell
    /\ cell = el0 "td" [ el "span" "no-website" [ Text "N/A" ] ]
    /\ text_content cell = "N/A"
    /\ elements_by_tag "a" cell = []
    /\ elements_by_tag "a" row = [].
Proof.
  intros Hf Hok Hj Hv Hnull.
  destruct (row_of_position w r d i v Hf Hok Hj Hv) as [Hpage Hrow].
  destruct (falsy_website_cell v i) as [Hcell Hrow_a].
  { rewrite Hnull. reflexivity. }
  exists (SuccessView d), (Row v i), (el0 "td" [ el "span" "no-website" [ Text "N/A" ] ]).
  repeat split; assumption.
Qed.

Lemma null_website_renders_placeholder_witness :
  exists page row,
    Home Samples.w_ok = Fulfilled page
    /\ nth_error (body_rows page) 1 = Some row
    /\ website_cell row = Some (el0 "td" [ el "span" "no-website" [ Text "N/A" ] ])
    /\ elements_by_tag "a" row = [].
Proof.
  destruct (null_website_renders_placeholder Samples.w_ok Samples.resp_ok
              Samples.board 1 Samples.bob eq_refl eq_refl eq_refl eq_refl eq_refl)
    as [page [row [cell [H1 [H2 [H3 [H4 [_ [_ H5]]]]]]]]].
  exists page, row. rewrite <- H4. repeat split; assumption.
Defined.

(** C10: for a validator whose [website] is the empty string, the website
    cell holds the same "N/A" [span] and no link: the test is the
    truthiness of [website], and every falsy [website] takes this branch. *)
Theorem empty_website_renders_placeholder
    (w : World) (r : Response) (d : ApiResponse) (i : nat) (v : Validator) :
  fetch w endpoint = Fulfilled r -> ok r = true -> json r = Fulfilled (Some d) ->
  nth_error (data d) i = Some v ->
  website v = Some "" ->
  exists page row cell,
    Home w = Fulfilled page
    /\ nth_error (body_rows page) i = Some row
    /\ website_cell row = Some cell
    /\ cell = el0 "td" [ el "span" "no-website" [ Text "N/A" ] ]
    /\ elements_by_tag "a" row = []
    /\ (forall v' : Validator,
          website_cell (Row v' i) = Some cell <-> truthy (website v') = false).
Proof.
  intros Hf Hok Hj Hv Hempty.
  destruct (row_of_position w r d i v Hf Hok Hj Hv) as [Hpage Hrow].
  destruct (falsy_website_cell v i) as [Hcell Hrow_a].
  { rewrite Hempty. reflexivity. }
  exists (SuccessView d), (Row v i), (el0 "td" [ el "span" "no-website" [ Text "N/A" ] ]).
  repeat split; try assumption.
  - intros H. unfold website_cell, Row, WebsiteCell in H. simpl in H.
    destruct (website v') as [ url | ]; simpl; [ | reflexivity ].
    destruct (String.eqb url ""); [ reflexivity | discriminate ].
  - intros H. apply falsy_website_cell. exact H.
Qed.

Lemma empty_website_renders_placeholder_witness :
  exists page row,
    Home Samples.w_ok = Fulfilled page
    /\ nth_error (body_rows page) 2 = Some row
    /\ website_cell row = Some (el0 "td" [ el "span" "no-website" [ Text "N/A" ] ])
    /\ elements_by_tag "a" row = [].
Proof.
  destruct (empty_website_renders_placeholder Samples.w_ok Samples.resp_ok
              Samples.board 2 Samples.carol eq_refl eq_refl eq_refl eq_refl eq_refl)
    as [page [row [cell [H1 [H2 [H3 [H4 [H5 _]]]]]]]].
  exists page, row. rewrite <- H4. repeat split; assumption.
Defined.

(** *** Determinism *)

(** C9: what [Home] returns is a function of what the request to the
    endpoint settles to, and of nothing else in the world: two worlds that
    answer the endpoint alike give equal results, whatever their clocks,
    random numbers and answers at other addresses; the [as_of] string
    shown is the one of the response. *)
Theorem Home_deterministic (w1 w2 : World) :
  fetch w1 endpoint = fetch w2 endpoint -> Home w1 = Home w2.
Proof.
  intros H. unfold Home, getData, getData_body. rewrite H. reflexivity.
Qed.

Lemma Home_deterministic_witness :
  clock Samples.w_ok <> clock Samples.w_ok_later
  /\ entropy Samples.w_ok <> entropy Samples.w_ok_later
  /\ fetch Samples.w_ok "https://example.org" <> fetch Samples.w_ok_later "https://example.org"
  /\ Home Samples.w_ok = Home Samples.w_ok_later.
Proof.
  split; [ discriminate | ].
  split; [ discriminate | ].
  split; [ discriminate | ].
  apply (Home_deterministic Samples.w_ok Samples.w_ok_later). reflexivity.
Defined.

(** * Rounding to binary64 *)

Module Rounding.

Lemma fexp_eq (k : Z) : fexp prec emax k = Z.max (k - 53) (-1074).
Proof. reflexivity. Qed.

Lemma pow2_pos (k : Z) : 0 <= k -> 0 < 2 ^ k.
Proof. intros H. apply Z.pow_pos_nonneg; lia. Qed.

Lemma pow2_le (a b : Z) : 0 <= a <= b -> 2 ^ a <= 2 ^ b.
Proof. intros H. apply Z.pow_le_mono_r; lia. Qed.

Lemma pow2_lt (a b : Z) : 0 <= a < b -> 2 ^ a < 2 ^ b.
Proof. intros H. apply Z.pow_lt_mono_r; lia. Qed.

Lemma pow2_split (a b : Z) : 0 <= a -> 0 <= b -> 2 ^ (a + b) = 2 ^ a * 2 ^ b.
Proof. intros. apply Z.pow_add_r; assumption. Qed.

(** *** The number of binary digits *)

Lemma digits2_pos_bounds (p : positive) :
  2 ^ (Zpos (digits2_pos p) - 1) <= Zpos p < 2 ^ Zpos (digits2_pos p).
Proof.
  induction p as [ p IH | p IH | ]; simpl digits2_pos.
  - rewrite Pos2Z.inj_succ.
    replace (Z.succ (Zpos (digits2_pos p)) - 1) with (Z.succ (Zpos (digits2_pos p) - 1)) by lia.
    rewrite !Z.pow_succ_r by lia. lia.
  - rewrite Pos2Z.inj_succ.
    replace (Z.succ (Zpos (digits2_pos p)) - 1) with (Z.succ (Zpos (digits2_pos p) - 1)) by lia.
    rewrite !Z.pow_succ_r by lia. lia.
  - simpl. lia.
Qed.

Lemma Zdigits2_nonneg (m : Z) : 0 <= Zdigits2 m.
Proof. destruct m; simpl; lia. Qed.

Lemma Zdigits2_bounds (m : Z) :
  0 < m -> 2 ^ (Zdigits2 m - 1) <= m < 2 ^ Zdigits2 m.
Proof.
  destruct m as [ | p | p ]; try lia. intros _. apply digits2_pos_bounds.
Qed.

Lemma Zdigits2_pos (m : Z) : 0 < m -> 0 < Zdigits2 m.
Proof. destruct m; simpl; lia. Qed.

Lemma Zdigits2_le (m k : Z) : 0 <= m -> 0 <= k -> m < 2 ^ k -> Zdigits2 m <= k.
Proof.
  intros Hm Hk Hlt.
  destruct (Z.eq_dec m 0) as [ -> | Hne ]; [ simpl; lia | ].
  destruct (Zdigits2_bounds m) as [Hlo _]; [ lia | ].
  destruct (Z_le_gt_dec (Zdigits2 m) k) as [ | Hgt ]; [ assumption | exfalso ].
  assert (2 ^ k <= 2 ^ (Zdigits2 m - 1)) by (apply pow2_le; lia).
  lia.
Qed.

Lemma Zdigits2_gt (m k : Z) : 0 <= k -> 2 ^ k <= m -> k < Zdigits2 m.
Proof.
  intros Hk Hle.
  assert (0 < m) by (pose proof (pow2_pos k Hk); lia).
  destruct (Zdigits2_bounds m) as [_ Hhi]; [ assumption | ].
  destruct (Z_lt_le_dec k (Zdigits2 m)) as [ | Hge ]; [ assumption | exfalso ].
  assert (2 ^ Zdigits2 m <= 2 ^ k) by (apply pow2_le; pose proof (Zdigits2_nonneg m); lia).
  lia.
Qed.

(** *** Shifting right *)

Lemma shr_1_m (r : shr_record) :
  0 <= shr_m r ->
  shr_m (shr_1 r) = shr_m r / 2 /\ shr_r (shr_1 r) = Z.odd (shr_m r).
Proof.
  destruct r as [m rb sb]. simpl. intros Hm.
  destruct m as [ | [ p | p | ] | p ]; try lia; simpl shr_m; simpl shr_r.
  - split; reflexivity.
  - split; [ | reflexivity ].
    rewrite Pos2Z.inj_xI. apply Z.div_unique with 1; lia.
  - split; [ | reflexivity ].
    rewrite Pos2Z.inj_xO. apply Z.div_unique with 0; lia.
  - split; reflexivity.
Qed.

Lemma shr_1_inv (A W : Z) (r : shr_record) :
  0 < W -> shr_inv A W r -> shr_inv A (2 * W) (shr_1 r).
Proof.
  intros HW (Hm & Hle & Hrb).
  destruct (shr_1_m r Hm) as [Em Er].
  unfold shr_inv. rewrite Em, Er.
  pose proof (Z.div_mod (shr_m r) 2 ltac:(lia)) as Hdm.
  pose proof (Z.mod_pos_bound (shr_m r) 2 ltac:(lia)) as Hb.
  split; [ apply Z.div_pos; lia | ].
  split.
  - nia.
  - intros Hodd.
    apply Z.odd_spec in Hodd. destruct Hodd as [k Hk].
    assert (Ek : shr_m r / 2 = k) by lia.
    rewrite Ek. rewrite Hk in Hle. lia.
Qed.

Lemma iter_pos_invariant {A : Type} (f : A -> A) (P : Z -> A -> Prop) :
  (forall j x, 0 <= j -> P j x -> P (j + 1) (f x)) ->
  forall p j x, 0 <= j -> P j x -> P (j + Zpos p) (iter_pos f p x).
Proof.
  intros Hstep. induction p as [ p IH | p IH | ]; intros j x Hj HP; simpl.
  - replace (j + Zpos p~1) with (j + 1 + Zpos p + Zpos p) by lia.
    apply IH; [ lia | ]. apply IH; [ lia | ]. apply Hstep; assumption.
  - replace (j + Zpos p~0) with (j + Zpos p + Zpos p) by lia.
    apply IH; [ lia | ]. apply IH; assumption.
  - apply Hstep; assumption.
Qed.

Lemma iter_shr_1 (A W : Z) (p : positive) (r : shr_record) :
  0 < W -> shr_inv A W r ->
  shr_inv A (2 ^ Zpos p * W) (iter_pos shr_1 p r)
  /\ shr_m (iter_pos shr_1 p r) = shr_m r / 2 ^ Zpos p.
Proof.
  intros HW Hinv.
  pose (P := fun (j : Z) (x : shr_record) =>
               shr_inv A (2 ^ j * W) x /\ shr_m x = shr_m r / 2 ^ j).
  assert (H : P (0 + Zpos p) (iter_pos shr_1 p r)).
  { apply iter_pos_invariant; [ | lia | ].
    - intros j x Hj [Hx Ex]. unfold P.
      pose proof (pow2_pos j Hj) as Hp.
      rewrite pow2_split by lia. change (2 ^ 1) with 2.
      split.
      + replace (2 ^ j * 2 * W) with (2 * (2 ^ j * W)) by lia.
        apply shr_1_inv; [ nia | assumption ].
      + destruct Hx as (Hm & _).
        destruct (shr_1_m x Hm) as [Em _]. rewrite Em, Ex.
        rewrite Z.div_div by lia. reflexivity.
    - unfold P. change (2 ^ 0) with 1. rewrite Z.mul_1_l, Z.div_1_r.
      split; [ assumption | reflexivity ]. }
  exact H.
Qed.

Lemma shr_record_of_loc_m (m : Z) (l : location) : shr_m (shr_record_of_loc m l) = m.
Proof. destruct l as [ | [ | | ] ]; reflexivity. Qed.

Lemma shr_record_of_loc_r (m : Z) (l : location) :
  shr_r (shr_record_of_loc m l) = upper_half l.
Proof. destruct l as [ | [ | | ] ]; reflexivity. Qed.

Lemma loc_of_shr_record_upper (r : shr_record) :
  upper_half (loc_of_shr_record r) = shr_r r.
Proof. destruct r as [m [ | ] [ | ]]; reflexivity. Qed.

Lemma shr_fexp_spec (A W m e : Z) (l : location) :
  0 < W -> shr_inv A W (shr_record_of_loc m l) ->
  shr_inv A (2 ^ shift_of m e * W) (fst (shr_fexp prec emax m e l))
  /\ shr_m (fst (shr_fexp prec emax m e l)) = m / 2 ^ shift_of m e
  /\ snd (shr_fexp prec emax m e l) = e + shift_of m e.
Proof.
  intros HW Hinv. unfold shr_fexp, shr, shift_of.
  destruct (fexp prec emax (Zdigits2 m + e) - e) as [ | p | p ] eqn:E; cbn [fst snd].
  - rewrite Z.max_l by lia. change (2 ^ 0) with 1.
    rewrite Z.mul_1_l, Z.div_1_r, shr_record_of_loc_m.
    split; [ assumption | ]. split; [ reflexivity | lia ].
  - rewrite Z.max_r by lia.
    destruct (iter_shr_1 A W p _ HW Hinv) as [H1 H2].
    rewrite shr_record_of_loc_m in H2.
    split; [ assumption | ]. split; [ assumption | reflexivity ].
  - rewrite Z.max_l by lia. change (2 ^ 0) with 1.
    rewrite Z.mul_1_l, Z.div_1_r, shr_record_of_loc_m.
    split; [ assumption | ]. split; [ reflexivity | lia ].
Qed.

(** Without a bound on the value: the mantissa alone. *)
Lemma shr_fexp_m (m e : Z) (l : location) :
  0 <= m ->
  shr_m (fst (shr_fexp prec emax m e l)) = m / 2 ^ shift_of m e
  /\ snd (shr_fexp prec emax m e l) = e + shift_of m e.
Proof.
  intros Hm.
  assert (Hinv : shr_inv m 1 (shr_record_of_loc m loc_Exact)).
  { unfold shr_inv. simpl. repeat split; try lia; discriminate. }
  destruct (shr_fexp_spec m 1 m e loc_Exact ltac:(lia) Hinv) as (_ & H1 & H2).
  unfold shr_fexp, shr in *.
  destruct (fexp prec emax (Zdigits2 m + e) - e) as [ | p | p ];
    simpl fst in *; simpl snd in *; try rewrite shr_record_of_loc_m in *;
    try (split; assumption).
  split; [ | assumption ].
  rewrite <- H1. clear.
  assert (H1 : forall r1 r2, shr_m r1 = shr_m r2 ->
               shr_m (shr_1 r1) = shr_m (shr_1 r2)).
  { intros [m1 a1 b1] [m2 a2 b2] E. simpl in E. subst m2.
    destruct m1 as [ | [ q | q | ] | [ q | q | ] ]; reflexivity. }
  assert (H : forall q r1 r2, shr_m r1 = shr_m r2 ->
              shr_m (iter_pos shr_1 q r1) = shr_m (iter_pos shr_1 q r2)).
  { induction q as [ q IH | q IH | ]; intros r1 r2 E; simpl.
    - apply IH, IH, H1. assumption.
    - apply IH, IH. assumption.
    - apply H1. assumption. }
  apply H. rewrite !shr_record_of_loc_m. reflexivity.
Qed.

Lemma round_nearest_even_bounds (m : Z) (l : location) :
  m <= round_nearest_even m l <= m + 1
  /\ (upper_half l = false -> round_nearest_even m l = m).
Proof.
  destruct l as [ | [ | | ] ]; simpl; try (split; [ lia | reflexivity ]).
  - destruct (Z.even m); split; try lia; discriminate.
  - split; [ lia | discriminate ].
Qed.

Lemma binary_round_aux_eq (s : bool) (m e : Z) (l : location) :
  binary_round_aux prec emax s m e l
  = let r1 := shr_fexp prec emax m e l in
    let m2 := round_nearest_even (shr_m (fst r1)) (loc_of_shr_record (fst r1)) in
    let r2 := shr_fexp prec emax m2 (snd r1) loc_Exact in
    match shr_m (fst r2) with
    | Z0 => S754_zero s
    | Zpos m3 =>
        if snd r2 <=? emax - prec then S754_finite s m3 (snd r2) else S754_infinity s
    | Zneg _ => S754_nan
    end.
Proof.
  unfold binary_round_aux.
  destruct (shr_fexp prec emax m e l) as [r1 e1]. cbn [fst snd].
  destruct (shr_fexp prec emax _ e1 loc_Exact) as [r2 e2]. reflexivity.
Qed.

(** *** A value of at least 1 rounds to at least 1 *)

Lemma at_least_one_digits (m e : Z) : at_least_one m e -> 1 <= Zdigits2 m + e.
Proof.
  intros [Hm [He | He]].
  - pose proof (Zdigits2_pos m Hm). lia.
  - destruct (Z_le_gt_dec 0 e) as [ | Hneg ].
    + pose proof (Zdigits2_pos m Hm). lia.
    + pose proof (Zdigits2_gt m (- e) ltac:(lia) He). lia.
Qed.

Lemma shift_at_least_one (m e : Z) :
  at_least_one m e ->
  at_least_one (m / 2 ^ shift_of m e) (e + shift_of m e).
Proof.
  intros H. pose proof (at_least_one_digits m e H) as HD.
  destruct H as [Hm He].
  unfold shift_of. rewrite fexp_eq.
  destruct (Z_le_gt_dec (Zdigits2 m) 53) as [Hsmall | Hbig].
  - rewrite Z.max_l by lia. change (2 ^ 0) with 1.
    rewrite Z.div_1_r, Z.add_0_r. split; assumption.
  - rewrite Z.max_r by lia.
    replace (Z.max (Zdigits2 m + e - 53) (-1074) - e) with (Zdigits2 m - 53) by lia.
    set (j := Zdigits2 m - 53).
    destruct (Zdigits2_bounds m Hm) as [Hlo _].
    assert (Hj : 0 < 2 ^ j) by (apply pow2_pos; lia).
    assert (Hq : 2 ^ 52 <= m / 2 ^ j).
    { apply Z.div_le_lower_bound; [ assumption | ].
      replace (Zdigits2 m - 1) with (j + 52) in Hlo by lia.
      rewrite pow2_split in Hlo by lia. lia. }
    split; [ lia | ].
    destruct (Z_le_gt_dec 0 (e + j)) as [ | Hneg ]; [ left; assumption | right ].
    assert (2 ^ (- (e + j)) <= 2 ^ 52) by (apply pow2_le; lia).
    lia.
Qed.

Lemma round_aux_at_least_one (s : bool) (m e : Z) (l : location) :
  at_least_one m e ->
  match binary_round_aux prec emax s m e l with
  | S754_infinity s' => s' = s
  | S754_finite s' m' e' => s' = s /\ at_least_one (Zpos m') e'
  | _ => False
  end.
Proof.
  intros H. rewrite binary_round_aux_eq. cbv zeta.
  pose proof (shift_at_least_one m e H) as H1.
  destruct (shr_fexp_m m e l) as [Em1 Ee1]; [ destruct H; lia | ].
  rewrite <- Em1, <- Ee1 in H1.
  set (r1 := shr_fexp prec emax m e l) in *.
  set (m2 := round_nearest_even (shr_m (fst r1)) (loc_of_shr_record (fst r1))).
  assert (H2 : at_least_one m2 (snd r1)).
  { destruct (round_nearest_even_bounds (shr_m (fst r1)) (loc_of_shr_record (fst r1)))
      as [[Hlo _] _].
    fold m2 in Hlo. destruct H1 as [Hp Hv]. split; [ lia | ].
    destruct Hv; [ left; assumption | right; lia ]. }
  pose proof (shift_at_least_one m2 (snd r1) H2) as H3.
  destruct (shr_fexp_m m2 (snd r1) loc_Exact) as [Em3 Ee3]; [ destruct H2; lia | ].
  rewrite <- Em3, <- Ee3 in H3.
  destruct H3 as [Hp3 Hv3].
  destruct (shr_m (fst (shr_fexp prec emax m2 (snd r1) loc_Exact))) as [ | m3 | m3 ]; try lia.
  destruct (snd (shr_fexp prec emax m2 (snd r1) loc_Exact) <=? emax - prec).
  - split; [ reflexivity | ]. split; [ lia | assumption ].
  - reflexivity.
Qed.

(** *** A value below [1 - 2^-54] rounds to less than 1 *)

Lemma below_one_digits (m e : Z) : below_one m e -> Zdigits2 m + e <= 0.
Proof.
  intros (Hm & He & Hlt).
  pose proof (Zdigits2_le m (- e) Hm ltac:(lia) Hlt). lia.
Qed.

Lemma shift_below_one (m e : Z) :
  below_one m e -> e <= -53 ->
  below_one (m / 2 ^ shift_of m e) (e + shift_of m e)
  /\ e + shift_of m e <= -53.
Proof.
  intros H He53. pose proof (below_one_digits m e H) as HD.
  destruct H as (Hm & He & Hlt).
  unfold shift_of. rewrite fexp_eq.
  set (j := Z.max 0 (Z.max (Zdigits2 m + e - 53) (-1074) - e)).
  assert (Hj : 0 <= j) by lia.
  assert (Hej : e + j <= -53) by lia.
  split; [ | assumption ].
  pose proof (pow2_pos j Hj) as Hpj.
  split; [ apply Z.div_pos; lia | ].
  split; [ lia | ].
  apply Z.div_lt_upper_bound; [ assumption | ].
  rewrite <- pow2_split by lia.
  replace (j + - (e + j)) with (- e) by lia. assumption.
Qed.

Lemma round_up_stays_below (A W m1 m2 P1 : Z) :
  0 < W -> 0 <= m1 -> 2 ^ 53 <= P1 ->
  m1 * W <= A ->
  (m2 <> m1 -> (2 * m1 + 1) * W <= 2 * A) ->
  m1 <= m2 <= m1 + 1 ->
  2 ^ 54 * A < W * (2 ^ 54 - 1) * P1 ->
  m2 < P1.
Proof.
  intros HW Hm1 HP Hle Hup Hm2 Hbound.
  change (2 ^ 54) with (2 * 2 ^ 53) in Hbound.
  set (H53 := 2 ^ 53) in *.
  assert (0 < H53) by (unfold H53; lia).
  destruct (Z.eq_dec m2 m1) as [ -> | Hne ].
  - destruct (Z_lt_le_dec m1 P1) as [ | Hge ]; [ assumption | exfalso ].
    assert (P1 * W <= m1 * W) by (apply Z.mul_le_mono_nonneg_r; lia).
    nia.
  - specialize (Hup Hne).
    destruct (Z_lt_le_dec m2 P1) as [ | Hge ]; [ assumption | exfalso ].
    assert (Hge' : 2 * P1 - 1 <= 2 * m1 + 1) by lia.
    assert ((2 * P1 - 1) * W <= (2 * m1 + 1) * W)
      by (apply Z.mul_le_mono_nonneg_r; lia).
    assert (HA : (2 * P1 - 1) * W <= 2 * A) by lia.
    assert (HK : 2 * H53 * ((2 * P1 - 1) * W) <= 2 * H53 * (2 * A))
      by (apply Z.mul_le_mono_nonneg_l; lia).
    assert (HX : 2 * H53 * ((2 * P1 - 1) * W) < 2 * (W * (2 * H53 - 1) * P1)) by lia.
    assert (HY : W * (2 * H53 * (2 * P1 - 1)) < W * (2 * ((2 * H53 - 1) * P1))) by lia.
    apply Z.mul_lt_mono_pos_l in HY; [ | assumption ].
    nia.
Qed.

Lemma round_aux_below_one (s : bool) (q e : Z) (l : location) (A B : Z) :
  0 <= q -> 0 < B -> q * B <= A ->
  (upper_half l = true -> (2 * q + 1) * B <= 2 * A) ->
  e <= -53 ->
  2 ^ 54 * A < B * (2 ^ 54 - 1) * 2 ^ (- e) ->
  match binary_round_aux prec emax s q e l with
  | S754_zero s' => s' = s
  | S754_finite s' m' e' => s' = s /\ below_one (Zpos m') e'
  | _ => False
  end.
Proof.
  intros Hq HB Hle Hup He Hbound.
  rewrite binary_round_aux_eq. cbv zeta.
  assert (Hinv : shr_inv A B (shr_record_of_loc q l)).
  { unfold shr_inv. rewrite shr_record_of_loc_m, shr_record_of_loc_r.
    repeat split; assumption. }
  assert (Hpe : 0 < 2 ^ (- e)) by (apply pow2_pos; lia).
  assert (Hq1 : below_one q e).
  { split; [ assumption | ]. split; [ lia | ].
    destruct (Z_lt_le_dec q (2 ^ (- e))) as [ | Hge ]; [ assumption | exfalso ].
    assert (2 ^ (- e) * B <= q * B) by (apply Z.mul_le_mono_nonneg_r; lia).
    nia. }
  destruct (shift_below_one q e Hq1 He) as [_ He1].
  destruct (shr_fexp_spec A B q e l HB Hinv) as (Hinv1 & Em1 & Ee1).
  set (j := shift_of q e) in *.
  assert (Hj : 0 <= j) by (unfold j, shift_of; lia).
  set (r1 := shr_fexp prec emax q e l) in *.
  set (m1 := shr_m (fst r1)) in *.
  set (m2 := round_nearest_even m1 (loc_of_shr_record (fst r1))).
  rewrite <- Ee1 in He1.
  assert (Hm2 : below_one m2 (snd r1)).
  { destruct Hinv1 as (Hm1 & Hle1 & Hup1). fold m1 in Hm1, Hle1, Hup1.
    destruct (round_nearest_even_bounds m1 (loc_of_shr_record (fst r1))) as [Hb Hsame].
    fold m2 in Hb, Hsame.
    split; [ lia | ]. split; [ lia | ].
    pose proof (pow2_pos j Hj) as Hpj.
    apply (round_up_stays_below A (2 ^ j * B) m1 m2); try assumption.
    - nia.
    - change (2 ^ 53) with (2 ^ (- (-53))). apply pow2_le. lia.
    - intros Hne. apply Hup1.
      rewrite <- loc_of_shr_record_upper.
      destruct (upper_half (loc_of_shr_record (fst r1))); [ reflexivity | ].
      exfalso. apply Hne. apply Hsame. reflexivity.
    - replace (- e) with (j + - snd r1) in Hbound by lia.
      rewrite pow2_split in Hbound by lia. nia. }
  destruct (shift_below_one m2 (snd r1) Hm2 He1) as [H3 _].
  destruct (shr_fexp_m m2 (snd r1) loc_Exact) as [Em3 Ee3]; [ destruct Hm2; lia | ].
  rewrite <- Em3, <- Ee3 in H3.
  destruct H3 as (Hp3 & He3 & Hv3).
  destruct (shr_m (fst (shr_fexp prec emax m2 (snd r1) loc_Exact))) as [ | m3 | m3 ]; try lia.
  - reflexivity.
  - replace (snd (shr_fexp prec emax m2 (snd r1) loc_Exact) <=? emax - prec) with true.
    + split; [ reflexivity | ]. repeat split; assumption.
    + symmetry. apply Z.leb_le. change (emax - prec) with 971. lia.
Qed.

(** *** Division by 60 *)

Lemma sixty_eq : sixty = S754_finite false m60 (-47).
Proof. reflexivity. Qed.

Lemma m60_eq : Zpos m60 = 15 * 2 ^ 49.
Proof. reflexivity. Qed.

Lemma bounded_inv (m : positive) (e : Z) :
  bounded prec emax m e = true ->
  Z.max (Zpos (digits2_pos m) + e - 53) (-1074) = e /\ e <= 971.
Proof.
  unfold bounded, canonical_mantissa. rewrite fexp_eq.
  intros H. apply andb_prop in H. destruct H as [H1 H2].
  apply Z.eqb_eq in H1. apply Z.leb_le in H2.
  change (emax - prec) with 971 in H2. split; assumption.
Qed.

Lemma new_location_upper (B r : Z) :
  0 < B -> 0 <= r < B -> upper_half (new_location B r) = true -> B <= 2 * r.
Proof.
  intros HB Hr. unfold new_location, new_location_even, new_location_odd.
  destruct (Z.even B); destruct (r =? 0); try discriminate.
  - destruct (Z.compare_spec (2 * r) B); cbn [upper_half]; try discriminate; lia.
  - destruct (Z.compare_spec (2 * r + 1) B); cbn [upper_half]; try discriminate; lia.
Qed.

Lemma div_eucl_eq (a b : Z) : Z.div_eucl a b = (a / b, a mod b).
Proof. unfold Z.div, Z.modulo. destruct (Z.div_eucl a b). reflexivity. Qed.

(** The quotient [SFdiv] hands to the rounding, for a divisor 60. *)
Lemma div_by_sixty (mx : positive) (ex : Z) :
  bounded prec emax mx ex = true ->
  let e' := Z.max (Zpos (digits2_pos mx) + ex - 59) (-1074) in
  let M := Zpos mx * 2 ^ (ex + 47 - e') in
  div (S754_finite false mx ex) sixty
  = binary_round_aux prec emax false (M / Zpos m60) e' (new_location (Zpos m60) (M mod Zpos m60))
  /\ 0 < ex + 47 - e'.
Proof.
  intros Hb e' M. destruct (bounded_inv mx ex Hb) as [Hc He].
  assert (Hs : 0 < ex + 47 - e') by (unfold e'; lia).
  split; [ | assumption ].
  unfold div. rewrite sixty_eq. unfold SFdiv, SFdiv_core_binary.
  rewrite fexp_eq.
  change (Zdigits2 (Z.pos m60)) with 53.
  change (Zdigits2 (Z.pos mx)) with (Zpos (digits2_pos mx)).
  replace (Z.pos (digits2_pos mx) + ex - (53 + -47) - 53)
    with (Zpos (digits2_pos mx) + ex - 59) by lia.
  fold e'.
  replace (Z.min e' (ex - -47)) with e' by lia.
  replace (ex - -47 - e') with (ex + 47 - e') by lia.
  destruct (ex + 47 - e') as [ | s | s ] eqn:Es; try lia.
  rewrite Z.shiftl_mul_pow2 by lia.
  unfold M. rewrite div_eucl_eq. reflexivity.
Qed.

Lemma SFltb_finite (mx my : positive) (ex ey : Z) :
  SFltb (S754_finite false mx ex) (S754_finite false my ey) = true ->
  ex < ey \/ (ex = ey /\ Zpos mx < Zpos my).
Proof.
  unfold SFltb, SFcompare.
  destruct (Z.compare_spec ex ey) as [ -> | | ]; try discriminate.
  - fold (Pos.compare mx my).
    destruct (Pos.compare_spec mx my); try discriminate.
    intros _. right. split; [ reflexivity | ]. lia.
  - intros _. left. assumption.
Qed.

Lemma SFleb_finite (mx my : positive) (ex ey : Z) :
  SFleb (S754_finite false mx ex) (S754_finite false my ey) = true ->
  ex < ey \/ (ex = ey /\ Zpos mx <= Zpos my).
Proof.
  unfold SFleb, SFcompare.
  destruct (Z.compare_spec ex ey) as [ -> | | ]; try discriminate.
  - fold (Pos.compare mx my).
    destruct (Pos.compare_spec mx my); try discriminate.
    + intros _. right. split; [ reflexivity | ]. lia.
    + intros _. right. split; [ reflexivity | ]. lia.
  - intros _. left. assumption.
Qed.

Lemma finite_lt_sixty (mx : positive) (ex : Z) :
  lt (S754_finite false mx ex) sixty = true ->
  ex < -47 \/ (ex = -47 /\ Zpos mx < Zpos m60).
Proof. unfold lt. rewrite sixty_eq. apply SFltb_finite. Qed.

Lemma finite_ge_sixty (mx : positive) (ex : Z) :
  ge (S754_finite false mx ex) sixty = true ->
  -47 < ex \/ (ex = -47 /\ Zpos m60 <= Zpos mx).
Proof.
  unfold ge. rewrite sixty_eq. intros H. apply SFleb_finite in H.
  destruct H as [ H | [H1 H2] ]; [ left; lia | right; split; [ lia | assumption ] ].
Qed.

Lemma digits2_le_53 (mx : positive) (ex : Z) :
  bounded prec emax mx ex = true -> Zpos mx < 2 ^ 53.
Proof.
  intros Hb. destruct (bounded_inv mx ex Hb) as [Hc _].
  destruct (digits2_pos_bounds mx) as [_ Hhi].
  assert (2 ^ Zpos (digits2_pos mx) <= 2 ^ 53) by (apply pow2_le; lia).
  lia.
Qed.

Lemma div_lt_sixty (mx : positive) (ex : Z) :
  bounded prec emax mx ex = true ->
  lt (S754_finite false mx ex) sixty = true ->
  match div (S754_finite false mx ex) sixty with
  | S754_zero s => s = false
  | S754_finite s m e => s = false /\ below_one (Zpos m) e
  | _ => False
  end.
Proof.
  intros Hb Hlt.
  destruct (div_by_sixty mx ex Hb) as [Ediv Hs]. cbv zeta in Ediv, Hs.
  rewrite Ediv. clear Ediv.
  destruct (bounded_inv mx ex Hb) as [Hc He].
  pose proof (digits2_le_53 mx ex Hb) as Hmx.
  apply finite_lt_sixty in Hlt.
  set (e' := Z.max (Zpos (digits2_pos mx) + ex - 59) (-1074)) in *.
  set (M := Zpos mx * 2 ^ (ex + 47 - e')).
  assert (He' : e' <= -53) by (unfold e'; lia).
  assert (Hps : 0 < 2 ^ (ex + 47 - e')) by (apply pow2_pos; lia).
  assert (HM : 0 <= M) by (unfold M; lia).
  pose proof (Z.div_mod M (Zpos m60) ltac:(lia)) as Hdm.
  pose proof (Z.mod_pos_bound M (Zpos m60) ltac:(lia)) as Hr.
  apply round_aux_below_one with (A := M) (B := Zpos m60).
  - apply Z.div_pos; lia.
  - lia.
  - lia.
  - intros Hup. apply new_location_upper in Hup; lia.
  - assumption.
  - unfold M. rewrite m60_eq.
    destruct Hlt as [Hex | [Hex Hm]].
    + assert (Hp : 2 * 2 ^ (ex + 47 - e') <= 2 ^ (- e')).
      { replace (- e') with (1 + (- e' - 1)) by lia.
        rewrite pow2_split by lia. change (2 ^ 1) with 2.
        assert (2 ^ (ex + 47 - e') <= 2 ^ (- e' - 1)) by (apply pow2_le; lia).
        lia. }
      set (S := 2 ^ (ex + 47 - e')) in *. set (P := 2 ^ (- e')) in *.
      assert (H1 : 2 ^ 54 * (Zpos mx * S) <= 2 ^ 54 * (2 ^ 53 * S))
        by (apply Z.mul_le_mono_nonneg_l; [ lia | nia ]).
      assert (H2 : 2 ^ 54 * (2 ^ 53 * S) = 2 ^ 106 * (2 * S)) by lia.
      assert (H3 : 2 ^ 106 * (2 * S) <= 2 ^ 106 * P)
        by (apply Z.mul_le_mono_nonneg_l; lia).
      assert (H4 : 2 ^ 106 * P < 15 * 2 ^ 49 * (2 ^ 54 - 1) * P)
        by (apply Z.mul_lt_mono_pos_r; lia).
      lia.
    + subst ex. replace (-47 + 47 - e') with (- e') by lia.
      set (P := 2 ^ (- e')) in *.
      rewrite m60_eq in Hm.
      assert (H1 : 2 ^ 54 * Zpos mx < 15 * 2 ^ 49 * (2 ^ 54 - 1)) by lia.
      replace (2 ^ 54 * (Zpos mx * P)) with (2 ^ 54 * Zpos mx * P) by lia.
      apply Z.mul_lt_mono_pos_r; [ unfold P; apply pow2_pos; lia | assumption ].
Qed.

Lemma div_ge_sixty (mx : positive) (ex : Z) :
  bounded prec emax mx ex = true ->
  ge (S754_finite false mx ex) sixty = true ->
  match div (S754_finite false mx ex) sixty with
  | S754_infinity s => s = false
  | S754_finite s m e => s = false /\ at_least_one (Zpos m) e
  | _ => False
  end.
Proof.
  intros Hb Hge.
  destruct (div_by_sixty mx ex Hb) as [Ediv Hs]. cbv zeta in Ediv, Hs.
  rewrite Ediv. clear Ediv.
  destruct (bounded_inv mx ex Hb) as [Hc He].
  apply finite_ge_sixty in Hge.
  assert (Hd : Zpos (digits2_pos mx) = 53) by lia.
  rewrite Hd in *.
  replace (Z.max (53 + ex - 59) (-1074)) with (ex - 6) in * by lia.
  replace (ex + 47 - (ex - 6)) with 53 in * by lia.
  destruct (digits2_pos_bounds mx) as [Hlo _]. rewrite Hd in Hlo.
  change (2 ^ (53 - 1)) with (2 ^ 52) in Hlo.
  apply round_aux_at_least_one.
  rewrite m60_eq.
  destruct Hge as [Hex | [Hex Hm]].
  - assert (Hq : 2 ^ 52 <= Zpos mx * 2 ^ 53 / (15 * 2 ^ 49))
      by (apply Z.div_le_lower_bound; lia).
    split; [ lia | ].
    destruct (Z_le_gt_dec 0 (ex - 6)) as [ | Hneg ]; [ left; assumption | right ].
    assert (2 ^ (- (ex - 6)) <= 2 ^ 52) by (apply pow2_le; lia).
    lia.
  - subst ex. rewrite m60_eq in Hm.
    assert (Hq : 2 ^ 53 <= Zpos mx * 2 ^ 53 / (15 * 2 ^ 49))
      by (apply Z.div_le_lower_bound; lia).
    split; [ lia | ]. right. change (2 ^ (- (-47 - 6))) with (2 ^ 53). assumption.
Qed.

(** *** Integers as numbers *)

Lemma iter_xO (m d : positive) : Zpos (Pos.iter xO m d) = Zpos m * 2 ^ Zpos d.
Proof.
  induction d as [ | d IH ] using Pos.peano_ind.
  - simpl. lia.
  - rewrite Pos.iter_succ, Pos2Z.inj_xO, IH, Pos2Z.inj_succ, Z.pow_succ_r by lia. lia.
Qed.

Lemma shl_align_at_least_one (m : positive) (e e' : Z) :
  at_least_one (Zpos m) e ->
  at_least_one (Zpos (fst (shl_align m e e'))) (snd (shl_align m e e')).
Proof.
  intros H. unfold shl_align.
  destruct (e' - e) as [ | d | d ] eqn:E; cbn [fst snd]; try assumption.
  rewrite iter_xO. destruct H as [Hm Hv].
  assert (Hd : 0 < 2 ^ Zpos d) by (apply pow2_pos; lia).
  split; [ lia | ].
  destruct (Z_le_gt_dec 0 e') as [ | Hneg ]; [ left; assumption | right ].
  destruct Hv as [He | He].
  - assert (2 ^ (- e') <= 2 ^ Zpos d) by (apply pow2_le; lia). nia.
  - destruct (Z_le_gt_dec 0 e) as [ He0 | He0 ].
    + assert (2 ^ (- e') <= 2 ^ Zpos d) by (apply pow2_le; lia). nia.
    + replace (- e') with (- e + Zpos d) by lia.
      rewrite pow2_split by lia. nia.
Qed.

Lemma binary_round_at_least_one (s : bool) (m : positive) (e : Z) :
  at_least_one (Zpos m) e ->
  match binary_round prec emax s m e with
  | S754_infinity s' => s' = s
  | S754_finite s' m' e' => s' = s /\ at_least_one (Zpos m') e'
  | _ => False
  end.
Proof.
  intros H. unfold binary_round.
  pose proof (shl_align_at_least_one m e (fexp prec emax (Zpos (digits2_pos m) + e)) H) as H'.
  destruct (shl_align m e (fexp prec emax (Zpos (digits2_pos m) + e))) as [mz ez].
  apply round_aux_at_least_one. exact H'.
Qed.

Lemma binary_round_aux_sign (s : bool) (m e : Z) (l : location) :
  has_sign s (binary_round_aux prec emax s m e l).
Proof.
  rewrite binary_round_aux_eq. cbv zeta.
  destruct (shr_m (fst (shr_fexp prec emax _ _ loc_Exact))); simpl; try reflexivity.
  destruct (_ <=? _); reflexivity.
Qed.

Lemma binary_round_sign (s : bool) (m : positive) (e : Z) :
  has_sign s (binary_round prec emax s m e).
Proof.
  unfold binary_round. destruct (shl_align m e _) as [mz ez].
  apply binary_round_aux_sign.
Qed.

(** An integer [z >= 0] as a number has no sign, and is at least 1 unless
    it is zero. *)
Lemma of_nonneg_unsigned (z : Z) :
  0 <= z -> shown_unsigned (binary_normalize prec emax z 0 false).
Proof.
  intros Hz. destruct z as [ | p | p ]; try lia; simpl binary_normalize.
  - exact I.
  - pose proof (binary_round_at_least_one false p 0) as H.
    destruct (binary_round prec emax false p 0); simpl;
      try (apply H; split; [ lia | left; lia ]); exact I.
Qed.

Lemma of_pos_positive (z : Z) :
  0 < z ->
  match binary_normalize prec emax z 0 false with
  | S754_infinity s => s = false
  | S754_finite s m e => s = false /\ at_least_one (Zpos m) e
  | _ => False
  end.
Proof.
  intros Hz. destruct z as [ | p | p ]; try lia. simpl binary_normalize.
  apply binary_round_at_least_one. split; [ lia | left; lia ].
Qed.

(** *** [Math.floor], [Math.round] and [%] on numbers without a sign *)

Lemma zero_eq : of_Z 0 = S754_zero false.
Proof. reflexivity. Qed.

Lemma floor_at_least_one (m : positive) (e : Z) :
  at_least_one (Zpos m) e ->
  shown_unsigned (JsNumber.floor (S754_finite false m e))
  /\ gt (JsNumber.floor (S754_finite false m e)) (of_Z 0) = true.
Proof.
  intros H. unfold JsNumber.floor.
  destruct (Z.leb_spec 0 e) as [He | He].
  - split; [ split; [ reflexivity | assumption ] | reflexivity ].
  - destruct (Z.land (Zpos m) (Z.ones (- e)) =? 0).
    + split; [ split; [ reflexivity | assumption ] | reflexivity ].
    + rewrite Z.shiftr_div_pow2 by lia.
      destruct H as [_ [Hv | Hv]]; [ lia | ].
      assert (Hq : 0 < Zpos m / 2 ^ (- e)).
      { apply Z.div_str_pos. split; [ apply pow2_pos; lia | assumption ]. }
      pose proof (of_pos_positive _ Hq) as Hr.
      destruct (binary_normalize prec emax (Zpos m / 2 ^ (- e)) 0 false)
        as [ s | s | | s m' e' ]; try contradiction.
      * subst s. split; reflexivity.
      * destruct Hr as [-> Hr]. split; [ split; [ reflexivity | assumption ] | reflexivity ].
Qed.

Lemma floor_below_one (m : positive) (e : Z) :
  below_one (Zpos m) e ->
  JsNumber.floor (S754_finite false m e) = S754_zero false.
Proof.
  intros (_ & He & Hv). unfold JsNumber.floor.
  destruct (Z.leb_spec 0 e) as [He' | _]; [ lia | ].
  rewrite Z.land_ones by lia. rewrite Z.mod_small by lia.
  rewrite Z.shiftr_div_pow2 by lia. rewrite Z.div_small by lia.
  reflexivity.
Qed.

Lemma round_unsigned (v : number) :
  has_sign false v -> shown_unsigned (JsNumber.round v).
Proof.
  destruct v as [ s | s | | s m e ]; unfold has_sign, JsNumber.round, shown_unsigned;
    intros H; try exact I; try assumption.
  subst s.
  destruct (Z.leb_spec 0 e) as [He | He].
  - split; [ reflexivity | ]. split; [ lia | left; assumption ].
  - rewrite Z.land_ones by lia. rewrite Z.shiftr_div_pow2 by lia.
    assert (Hp : 0 < 2 ^ (- e)) by (apply pow2_pos; lia).
    destruct (Z.eqb_spec (Zpos m mod 2 ^ (- e)) 0) as [Hr | Hr].
    + split; [ reflexivity | ]. split; [ lia | right ].
      apply Z.mod_divide in Hr; [ | lia ].
      apply Z.divide_pos_le; [ lia | assumption ].
    + apply of_nonneg_unsigned.
      assert (0 <= Zpos m / 2 ^ (- e)) by (apply Z.div_pos; lia).
      destruct (_ <=? _); lia.
Qed.

Lemma rem_sign (mx : positive) (ex : Z) :
  has_sign false (rem (S754_finite false mx ex) sixty).
Proof.
  rewrite sixty_eq. unfold rem.
  set (e0 := Z.min ex (-47)).
  set (N := Z.shiftl (Zpos mx) (ex - e0)).
  set (D := Z.shiftl (Zpos m60) (-47 - e0)).
  assert (HD : 0 < D).
  { unfold D. rewrite Z.shiftl_mul_pow2 by lia.
    assert (0 < 2 ^ (-47 - e0)) by (apply pow2_pos; lia). lia. }
  pose proof (Z.mod_pos_bound N D HD) as Hr.
  simpl cond_Zopp.
  destruct (N mod D) as [ | p | p ]; try lia; simpl.
  - reflexivity.
  - apply binary_round_sign.
Qed.

(** Unless one side is NaN, [y <= x] is the negation of [x < y]. *)
Lemma SFleb_not_SFltb (x y : number) :
  x <> S754_nan -> y <> S754_nan -> SFleb y x = negb (SFltb x y).
Proof.
  intros Hx Hy. unfold SFleb, SFltb, SFcompare.
  destruct x as [ s | s | | s m e ]; try contradiction;
    destruct y as [ t | t | | t n f ]; try contradiction;
    try (destruct s; destruct t; reflexivity);
    try (destruct s; reflexivity); try (destruct t; reflexivity).
  destruct s; destruct t; try reflexivity.
  - rewrite (Z.compare_antisym e f).
    destruct (e ?= f); cbn [CompOpp]; try reflexivity.
    fold (Pos.compare n m). fold (Pos.compare m n).
    rewrite (Pos.compare_antisym m n).
    destruct (m ?= n)%positive; reflexivity.
  - rewrite (Z.compare_antisym e f).
    destruct (e ?= f); cbn [CompOpp]; try reflexivity.
    fold (Pos.compare n m). fold (Pos.compare m n).
    rewrite (Pos.compare_antisym m n).
    destruct (m ?= n)%positive; reflexivity.
Qed.

Lemma ge_sixty_not_lt (x : number) :
  x <> S754_nan -> ge x sixty = negb (lt x sixty).
Proof.
  intros Hx. unfold ge, lt. apply SFleb_not_SFltb; [ assumption | ].
  rewrite sixty_eq. discriminate.
Qed.

End Rounding.

(** * The characters of a number's string *)

Module Chars.

Lemma all_in_app (P : ascii -> bool) (s1 s2 : string) :
  all_in P (s1 ++ s2) = all_in P s1 && all_in P s2.
Proof.
  induction s1 as [ | a s1 IH ]; simpl; [ reflexivity | ].
  rewrite IH, andb_assoc. reflexivity.
Qed.

Lemma contains_app (c : ascii) (s1 s2 : string) :
  contains c (s1 ++ s2) = contains c s1 || contains c s2.
Proof.
  induction s1 as [ | a s1 IH ]; simpl; [ reflexivity | ].
  rewrite IH, orb_assoc. reflexivity.
Qed.

Lemma all_in_contains (P : ascii -> bool) (c : ascii) (s : string) :
  all_in P s = true -> P c = false -> contains c s = false.
Proof.
  intros H Hc. induction s as [ | a s IH ]; simpl in *; [ reflexivity | ].
  apply andb_prop in H. destruct H as [Ha Hs].
  rewrite (IH Hs), orb_false_r.
  destruct (Ascii.eqb_spec a c) as [ -> | ]; [ congruence | reflexivity ].
Qed.

Lemma all_in_weaken (P Q : ascii -> bool) (s : string) :
  (forall c, P c = true -> Q c = true) -> all_in P s = true -> all_in Q s = true.
Proof.
  intros HPQ. induction s as [ | a s IH ]; simpl; [ reflexivity | ].
  intros H. apply andb_prop in H. destruct H as [Ha Hs].
  rewrite (HPQ a Ha), (IH Hs). reflexivity.
Qed.

Lemma all_in_substring (P : ascii -> bool) (s : string) (n m : nat) :
  all_in P s = true -> all_in P (substring n m s) = true.
Proof.
  revert n m. induction s as [ | a s IH ]; intros n m H.
  - destruct n, m; reflexivity.
  - simpl in H. apply andb_prop in H. destruct H as [Ha Hs].
    destruct n as [ | n ].
    + destruct m as [ | m ]; simpl; [ reflexivity | ].
      rewrite Ha. apply IH. assumption.
    + simpl. apply IH. assumption.
Qed.

Lemma all_in_zeros (P : ascii -> bool) (n : nat) :
  P "0"%char = true -> all_in P (zeros n) = true.
Proof.
  intros H. induction n as [ | n IH ]; simpl; [ reflexivity | ].
  rewrite H, IH. reflexivity.
Qed.

Lemma all_in_of_list (P : ascii -> bool) (l : list ascii) :
  all_in P (string_of_list_ascii l) = forallb P l.
Proof.
  induction l as [ | a l IH ]; simpl; [ reflexivity | ]. rewrite IH. reflexivity.
Qed.

Lemma forallb_to_list (P : ascii -> bool) (s : string) :
  forallb P (list_ascii_of_string s) = all_in P s.
Proof.
  induction s as [ | a s IH ]; simpl; [ reflexivity | ]. rewrite IH. reflexivity.
Qed.

Lemma forallb_strip (P : ascii -> bool) (l : list ascii) :
  forallb P l = true -> forallb P (strip_zeros_rev l) = true.
Proof.
  induction l as [ | a l IH ]; simpl; [ reflexivity | ].
  intros H. apply andb_prop in H. destruct H as [Ha Hl].
  destruct (Ascii.eqb_spec a "0"%char) as [ -> | Hne ].
  - apply IH. assumption.
  - replace (match a with "0"%char => strip_zeros_rev l | _ => a :: l end) with (a :: l).
    + simpl. rewrite Ha, Hl. reflexivity.
    + destruct a as [[|] [|] [|] [|] [|] [|] [|] [|]]; try reflexivity.
      contradiction Hne. reflexivity.
Qed.

Lemma forallb_rev (P : ascii -> bool) (l : list ascii) :
  forallb P (rev l) = forallb P l.
Proof.
  induction l as [ | a l IH ]; simpl; [ reflexivity | ].
  rewrite forallb_app, IH. simpl. rewrite andb_true_r, andb_comm. reflexivity.
Qed.

Lemma all_in_strip (P : ascii -> bool) (s : string) :
  all_in P s = true -> all_in P (strip_trailing_zeros s) = true.
Proof.
  intros H. unfold strip_trailing_zeros.
  rewrite all_in_of_list, forallb_rev. apply forallb_strip.
  rewrite forallb_rev, forallb_to_list. assumption.
Qed.

Lemma all_in_uint (d : Decimal.uint) :
  all_in is_digit (NilEmpty.string_of_uint d) = true.
Proof. induction d; simpl; try rewrite IHd; reflexivity. Qed.

Lemma all_in_decimal (z : Z) : all_in is_digit (decimal z) = true.
Proof.
  unfold decimal, NilZero.string_of_uint.
  destruct (N.to_uint (Z.to_N z)) eqn:E; try reflexivity;
    rewrite <- E; apply all_in_uint.
Qed.

Lemma decimal_nonempty (z : Z) : 1 <= digits10 z.
Proof.
  unfold digits10, decimal, NilZero.string_of_uint.
  destruct (N.to_uint (Z.to_N z)); simpl; lia.
Qed.

Section Layout.

Variable P : ascii -> bool.
Hypothesis P_digit : forall c, is_digit c = true -> P c = true.
Hypothesis P_dot : P "."%char = true.
Hypothesis P_e : P "e"%char = true.
Hypothesis P_plus : P "+"%char = true.

Lemma all_in_digits (s : string) : all_in is_digit s = true -> all_in P s = true.
Proof. apply all_in_weaken. exact P_digit. Qed.

Lemma all_in_layout (ds : string) (k n : Z) :
  1 <= n \/ P "-"%char = true ->
  all_in P ds = true -> all_in P (layout ds k n) = true.
Proof.
  intros Hn Hds. unfold layout.
  assert (H0 : P "0"%char = true) by (apply P_digit; reflexivity).
  destruct ((k <=? n) && (n <=? 21)).
  { rewrite all_in_app, Hds, all_in_zeros by assumption. reflexivity. }
  destruct ((0 <? n) && (n <=? 21)).
  { rewrite !all_in_app, !all_in_substring by assumption.
    simpl. rewrite P_dot. reflexivity. }
  destruct ((-6 <? n) && (n <=? 0)).
  { rewrite !all_in_app, Hds, all_in_zeros by assumption.
    simpl. rewrite H0, P_dot. reflexivity. }
  assert (Hsign : all_in P (if n - 1 <? 0 then "-" else "+") = true).
  { destruct (Z.ltb_spec (n - 1) 0) as [Hneg | _]; simpl.
    - destruct Hn as [Hn | Hn]; [ lia | rewrite Hn; reflexivity ].
    - rewrite P_plus. reflexivity. }
  assert (Hexp : all_in P (decimal (Z.abs (n - 1))) = true)
    by (apply all_in_digits, all_in_decimal).
  destruct (k =? 1).
  - rewrite !all_in_app, Hds, Hsign, Hexp. simpl. rewrite P_e. reflexivity.
  - rewrite !all_in_app, !all_in_substring, Hsign, Hexp by assumption.
    simpl. rewrite P_dot, P_e. reflexivity.
Qed.

Lemma fraction_at_least_one (m : positive) (e : Z) :
  at_least_one (Zpos m) e -> snd (fraction m e) <= fst (fraction m e).
Proof.
  intros [_ Hv]. unfold fraction.
  destruct (Z.leb_spec 0 e) as [He | He]; cbn [fst snd].
  - rewrite Z.shiftl_mul_pow2 by assumption.
    pose proof (Rounding.pow2_pos e He). nia.
  - rewrite Z.shiftl_mul_pow2 by lia. destruct Hv; lia.
Qed.

Lemma all_in_toString_pos (m : positive) (e : Z) :
  at_least_one (Zpos m) e \/ P "-"%char = true ->
  all_in P (toString_pos m e) = true.
Proof.
  intros H. unfold toString_pos.
  pose proof (fraction_at_least_one m e) as Hf.
  destruct (fraction m e) as [num den]. cbn [fst snd] in Hf.
  destruct (shortest 17 num den (decimal_exponent num den) 1 (S754_finite false m e))
    as [s k].
  apply all_in_layout.
  - destruct H as [H | H]; [ left | right; assumption ].
    specialize (Hf H). unfold decimal_exponent.
    destruct (Z.leb_spec den num) as [ | Hlt ]; [ | lia ].
    pose proof (decimal_nonempty (num / den)).
    destruct (s =? pow10 k); lia.
  - apply all_in_strip, all_in_digits, all_in_decimal.
Qed.

End Layout.

Lemma toString_unsigned (v : number) :
  shown_unsigned v -> contains "-" (toString v) = false.
Proof.
  destruct v as [ s | s | | s m e ]; simpl; intros H; try reflexivity.
  - subst s. reflexivity.
  - destruct H as [-> H].
    apply all_in_contains with (P := unsigned_char); [ | reflexivity ].
    apply all_in_toString_pos; try reflexivity.
    + intros c Hc. unfold unsigned_char. rewrite Hc. reflexivity.
    + left. assumption.
Qed.

Lemma toString_number_chars (m : positive) (e : Z) :
  all_in number_char (toString_pos m e) = true.
Proof.
  apply all_in_toString_pos; try reflexivity.
  - intros c Hc. unfold number_char, unsigned_char. rewrite Hc. reflexivity.
  - right. reflexivity.
Qed.

(** No number is shown with a space, or with the letter [h]. *)
Lemma toString_no_space (v : number) : contains " " (toString v) = false.
Proof.
  destruct v as [ s | s | | s m e ]; simpl; try reflexivity.
  - destruct s; reflexivity.
  - pose proof (all_in_contains number_char " " _ (toString_number_chars m e) eq_refl) as H.
    destruct s; simpl; rewrite H; reflexivity.
Qed.

End Chars.

(** * [formatDowntime] *)

Lemma shown_unsigned_not_negative (v : number) :
  shown_unsigned v -> lt v (of_Z 0) = false.
Proof.
  destruct v as [ s | s | | s m e ]; unfold shown_unsigned; intros H.
  - destruct s; reflexivity.
  - subst s. reflexivity.
  - reflexivity.
  - destruct H as [-> _]. reflexivity.
Qed.

Lemma formatDowntime_eq (x : number) :
  formatDowntime x
  = if gt (JsNumber.floor (div x sixty)) (of_Z 0)
    then toString (JsNumber.floor (div x sixty)) ++ "h "
         ++ toString (JsNumber.round (rem x sixty)) ++ "m"
    else toString (JsNumber.round (rem x sixty)) ++ "m".
Proof. reflexivity. Qed.

(** The components of the result for a number that is not negative. *)
Lemma formatDowntime_components (x : number) :
  is_double x = true -> ge x (of_Z 0) = true ->
  shown_unsigned (JsNumber.floor (div x sixty))
  /\ shown_unsigned (JsNumber.round (rem x sixty))
  /\ gt (JsNumber.floor (div x sixty)) (of_Z 0) = ge x sixty
  /\ lt x sixty = negb (ge x sixty).
Proof.
  intros Hv Hx.
  assert (Hnan : x <> S754_nan) by (intros ->; discriminate).
  pose proof (Rounding.ge_sixty_not_lt x Hnan) as Hge.
  assert (Hlt : lt x sixty = negb (ge x sixty))
    by (rewrite Hge, negb_involutive; reflexivity).
  rewrite Rounding.zero_eq.
  destruct x as [ s | s | | s m e ]; try discriminate.
  - clear Hge Hlt. rewrite Rounding.sixty_eq.
    destruct s; (split; [ exact I | split; [ exact I | split; reflexivity ] ]).
  - destruct s; [ discriminate | ].
    clear Hge Hlt. rewrite Rounding.sixty_eq.
    split; [ reflexivity | split; [ exact I | split; reflexivity ] ].
  - destruct s; [ discriminate | ].
    assert (Hb : bounded prec emax m e = true) by exact Hv.
    split; [ | split; [ apply Rounding.round_unsigned, Rounding.rem_sign
                      | split; [ | exact Hlt ] ] ].
    + destruct (lt (S754_finite false m e) sixty) eqn:El.
      * pose proof (Rounding.div_lt_sixty m e Hb El) as Hd.
        destruct (div (S754_finite false m e) sixty) as [ s' | s' | | s' m' e' ];
          try contradiction.
        -- exact I.
        -- destruct Hd as [-> Hd]. rewrite (Rounding.floor_below_one m' e' Hd). exact I.
      * assert (Eg : ge (S754_finite false m e) sixty = true) by exact Hge.
        pose proof (Rounding.div_ge_sixty m e Hb Eg) as Hd.
        destruct (div (S754_finite false m e) sixty) as [ s' | s' | | s' m' e' ];
          try contradiction.
        -- subst s'. reflexivity.
        -- destruct Hd as [-> Hd]. apply Rounding.floor_at_least_one. assumption.
    + rewrite Hge.
      destruct (lt (S754_finite false m e) sixty) eqn:El; cbn [negb].
      * pose proof (Rounding.div_lt_sixty m e Hb El) as Hd.
        destruct (div (S754_finite false m e) sixty) as [ s' | s' | | s' m' e' ];
          try contradiction.
        -- reflexivity.
        -- destruct Hd as [-> Hd]. rewrite (Rounding.floor_below_one m' e' Hd). reflexivity.
      * assert (Eg : ge (S754_finite false m e) sixty = true) by exact Hge.
        pose proof (Rounding.div_ge_sixty m e Hb Eg) as Hd.
        destruct (div (S754_finite false m e) sixty) as [ s' | s' | | s' m' e' ];
          try contradiction.
        -- subst s'. reflexivity.
        -- destruct Hd as [-> Hd].
           rewrite <- Rounding.zero_eq. apply Rounding.floor_at_least_one. assumption.
Qed.

Lemma hours_minutes_shape_space (s : string) :
  hours_minutes_shape s -> contains " " s = true.
Proof.
  intros (h & m & _ & _ & ->).
  rewrite Chars.contains_app, Chars.toString_no_space. reflexivity.
Qed.

Lemma minutes_shape_no_space (s : string) :
  minutes_shape s -> contains " " s = false.
Proof.
  intros (m & _ & ->).
  rewrite Chars.contains_app, Chars.toString_no_space. reflexivity.
Qed.

(** C2: for a number [minutes >= 0], the result has no minus sign; it has
    the shape ["{h}h {m}m"] exactly when [minutes >= 60] and the shape
    ["{m}m"] exactly when [minutes < 60]. *)
Theorem formatDowntime_shape (x : number) :
  is_double x = true -> ge x (of_Z 0) = true ->
  contains "-" (formatDowntime x) = false
  /\ (hours_minutes_shape (formatDowntime x) <-> ge x (of_Z 60) = true)
  /\ (minutes_shape (formatDowntime x) <-> lt x (of_Z 60) = true).
Proof.
  intros Hv Hx.
  destruct (formatDowntime_components x Hv Hx) as (Hh & Hm & Hgt & Hlt).
  fold sixty. rewrite Hlt, formatDowntime_eq, Hgt.
  pose proof (Chars.toString_unsigned _ Hh) as Nh.
  pose proof (Chars.toString_unsigned _ Hm) as Nm.
  destruct (ge x sixty).
  - split; [ | split ].
    + rewrite !Chars.contains_app, Nh, Nm. reflexivity.
    + split; [ reflexivity | intros _ ].
      exists (JsNumber.floor (div x sixty)), (JsNumber.round (rem x sixty)).
      repeat split; apply shown_unsigned_not_negative; assumption.
    + split; [ | discriminate ].
      intros H. apply minutes_shape_no_space in H.
      rewrite !Chars.contains_app, !Chars.toString_no_space in H. discriminate H.
  - split; [ | split ].
    + rewrite !Chars.contains_app, Nm. reflexivity.
    + split; [ | discriminate ].
      intros H. apply hours_minutes_shape_space in H.
      rewrite !Chars.contains_app, !Chars.toString_no_space in H. discriminate H.
    + split; [ reflexivity | intros _ ].
      exists (JsNumber.round (rem x sixty)).
      split; [ apply shown_unsigned_not_negative; assumption | reflexivity ].
Qed.

Lemma formatDowntime_shape_witness :
  contains "-" (formatDowntime (of_Z 125)) = false
  /\ hours_minutes_shape (formatDowntime (of_Z 125))
  /\ minutes_shape (formatDowntime (of_ratio 596 10)).
Proof.
  destruct (formatDowntime_shape (of_Z 125) eq_refl eq_refl) as (H1 & H2 & _).
  destruct (formatDowntime_shape (of_ratio 596 10) eq_refl eq_refl) as (_ & _ & H3).
  split; [ exact H1 | ].
  split; [ apply H2; reflexivity | apply H3; reflexivity ].
Defined.

(** C1: [formatDowntime] takes the floor of [minutes / 60] as the hours
    and [minutes % 60] rounded to the nearest integer as the minutes; it
    returns ["{hours}h {minutes}m"] when the hours are greater than 0 and
    ["{minutes}m"], without any hours, otherwise.  So 0 gives "0m", 125
    gives "2h 5m", and 59.6 gives "60m": the 60 minutes of the rounding are
    not carried into the hours. *)
Theorem formatDowntime_rule :
  (forall minutes : number,
     let hours := JsNumber.floor (div minutes (of_Z 60)) in
     let mins := JsNumber.round (rem minutes (of_Z 60)) in
     (gt hours (of_Z 0) = true ->
        formatDowntime minutes = toString hours ++ "h " ++ toString mins ++ "m")
     /\ (gt hours (of_Z 0) = false ->
        formatDowntime minutes = toString mins ++ "m"))
  /\ formatDowntime (of_Z 0) = "0m"
  /\ formatDowntime (of_Z 125) = "2h 5m"
  /\ JsNumber.floor (div (of_ratio 596 10) (of_Z 60)) = of_Z 0
  /\ JsNumber.round (rem (of_ratio 596 10) (of_Z 60)) = of_Z 60
  /\ formatDowntime (of_ratio 596 10) = "60m".
Proof.
  split.
  - intros minutes hours mins. unfold formatDowntime. fold hours mins.
    split; intros ->; reflexivity.
  - repeat split; vm_compute; reflexivity.
Qed.

Lemma formatDowntime_rule_witness :
  formatDowntime (of_ratio 1196 10) = "1h 60m".
Proof.
  apply (proj1 (proj1 formatDowntime_rule (of_ratio 1196 10))).
  vm_compute. reflexivity.
Defined.

(** * Further properties of the page *)

(** ** The error view *)

Lemma ErrorView_text (error : option string) :
  text_content (ErrorView error)
  = "Error loading data: " ++ or_else error "No data available".
Proof.
  unfold ErrorView. cbn [text_content el map String.concat].
  reflexivity.
Qed.

Lemma ErrorView_no_table (error : option string) :
  elements_by_tag "table" (ErrorView error) = []
  /\ length (elements_by_class "error" (ErrorView error)) = 1%nat.
Proof. split; reflexivity. Qed.

(** X1: a response with a success status whose body is the JSON value
    [null] gives the error view with the text "No data available": the
    test [!data] of [Home]. *)
Theorem null_body_renders_no_data (w : World) (r : Response) :
  fetch w endpoint = Fulfilled r -> ok r = true -> json r = Fulfilled None ->
  exists page,
    Home w = Fulfilled page
    /\ text_content page = "Error loading data: No data available"
    /\ length (elements_by_class "error" page) = 1%nat
    /\ elements_by_tag "table" page = [].
Proof.
  intros Hf Hok Hj. exists (ErrorView None).
  split.
  - apply Home_null. rewrite (getData_success w r Hf Hok). exact Hj.
  - split; [ apply ErrorView_text | apply and_comm, ErrorView_no_table ].
Qed.

Lemma null_body_renders_no_data_witness :
  exists page,
    Home MoreSamples.w_null = Fulfilled page
    /\ text_content page = "Error loading data: No data available".
Proof.
  destruct (null_body_renders_no_data MoreSamples.w_null MoreSamples.resp_null
              eq_refl eq_refl eq_refl) as [page [H1 [H2 _]]].
  exists page. split; assumption.
Defined.


(** X3: for every response whose status is not a success, whatever the
    status and the body are, the page shows exactly "Error loading data:
    Failed to fetch data". *)
Theorem bad_status_text (w : World) (r : Response) :
  fetch w endpoint = Fulfilled r -> ok r = false ->
  exists page,
    Home w = Fulfilled page
    /\ text_content page = "Error loading data: Failed to fetch data".
Proof.
  intros Hf Hok.
  exists (ErrorView (Some (caught_message (ErrorObject "Error" "Failed to fetch data")))).
  split; [ | reflexivity ].
  apply Home_rejected. unfold getData, getData_body. rewrite Hf, Hok. reflexivity.
Qed.

Lemma bad_status_text_witness :
  exists page,
    Home MoreSamples.w_404 = Fulfilled page
    /\ text_content page = "Error loading data: Failed to fetch data".
Proof.
  exact (bad_status_text MoreSamples.w_404 MoreSamples.resp_404 eq_refl eq_refl).
Defined.

(** X4: when the request itself fails, [getData] is rejected with the
    very reason of [fetch], and the page shows the message of that reason;
    an [Error] with an empty message is shown as "No data available", a
    thrown value that is not an [Error] as "An error occurred". *)
Theorem network_failure_text (w : World) (reason : Thrown) :
  fetch w endpoint = Rejected reason ->
  getData w = Rejected reason
  /\ exists page,
       Home w = Fulfilled page
       /\ (forall c m, reason = ErrorObject c m -> m <> "" ->
             text_content page = "Error loading data: " ++ m)
       /\ (forall c, reason = ErrorObject c "" ->
             text_content page = "Error loading data: No data available")
       /\ (forall d, reason = OtherValue d ->
             text_content page = "Error loading data: An error occurred").
Proof.
  intros Hf.
  assert (Hg : getData w = Rejected reason).
  { unfold getData, getData_body. rewrite Hf. reflexivity. }
  split; [ exact Hg | ].
  exists (ErrorView (Some (caught_message reason))).
  split; [ apply Home_rejected; exact Hg | ].
  rewrite ErrorView_text.
  split; [ | split ].
  - intros c m -> Hm. cbn [caught_message or_else].
    destruct (String.eqb_spec m ""); [ contradiction | reflexivity ].
  - intros c ->. reflexivity.
  - intros d ->. reflexivity.
Qed.

Lemma network_failure_text_witness :
  getData Samples.w_offline = Rejected (ErrorObject "TypeError" "fetch failed")
  /\ exists page,
       Home Samples.w_offline = Fulfilled page
       /\ text_content page = "Error loading data: fetch failed".
Proof.
  destruct (network_failure_text Samples.w_offline
              (ErrorObject "TypeError" "fetch failed") eq_refl)
    as [H1 [page [H2 [H3 _]]]].
  split; [ exact H1 | ].
  exists page. split; [ exact H2 | ].
  apply (H3 "TypeError" "fetch failed" eq_refl). discriminate.
Defined.

(** ** The success view *)

(** X5: for a validator whose [website] is a non-empty string, the website
    cell of its row holds a link: an [a] element whose [href] and text are
    that string, opening in a new tab with [rel="noopener noreferrer"];
    the row has no "N/A" placeholder. *)
Theorem website_renders_link
    (w : World) (r : Response) (d : ApiResponse) (i : nat) (v : Validator) (url : string) :
  fetch w endpoint = Fulfilled r -> ok r = true -> json r = Fulfilled (Some d) ->
  nth_error (data d) i = Some v ->
  website v = Some url -> url <> "" ->
  exists page row,
    Home w = Fulfilled page
    /\ nth_error (body_rows page) i = Some row
    /\ website_cell row
       = Some (el0 "td"
                 [ Element "a" None
                     [ ("href", url); ("target", "_blank");
                       ("rel", "noopener noreferrer"); ("className", "website-link") ]
                     [ Text url ] ])
    /\ length (elements_by_tag "a" row) = 1%nat
    /\ elements_by_class "no-website" row = [].
Proof.
  intros Hf Hok Hj Hv Hw Hne.
  destruct (row_of_position w r d i v Hf Hok Hj Hv) as [Hpage Hrow].
  exists (SuccessView d), (Row v i).
  split; [ exact Hpage | ]. split; [ exact Hrow | ].
  unfold website_cell, Row, WebsiteCell. cbn [children_of nth_error].
  rewrite Hw. destruct (String.eqb_spec url ""); [ contradiction | ].
  split; [ reflexivity | split; reflexivity ].
Qed.

Lemma website_renders_link_witness :
  exists page row,
    Home Samples.w_ok = Fulfilled page
    /\ nth_error (body_rows page) 0 = Some row
    /\ website_cell row
       = Some (el0 "td"
                 [ Element "a" None
                     [ ("href", "https://alice.example"); ("target", "_blank");
                       ("rel", "noopener noreferrer"); ("className", "website-link") ]
                     [ Text "https://alice.example" ] ]).
Proof.
  destruct (website_renders_link Samples.w_ok Samples.resp_ok Samples.board 0
              Samples.alice "https://alice.example"
              eq_refl eq_refl eq_refl eq_refl eq_refl)
    as [page [row [H1 [H2 [H3 _]]]]].
  - discriminate.
  - exists page, row. split; [ exact H1 | split; [ exact H2 | exact H3 ] ].
Defined.

Lemma Row_cells (v : Validator) (i : nat) :
  length (children_of (Row v i)) = 5%nat
  /\ downtime_cell (Row v i) = Some (el "td" "downtime" [ Text (formatDowntime (minutes v)) ])
  /\ incidents_cell (Row v i) = Some (el "td" "incidents" [ Num (incidents v) ]).
Proof. split; [ reflexivity | split; reflexivity ]. Qed.

Lemma Row_no_th (v : Validator) (i : nat) : elements_by_tag "th" (Row v i) = [].
Proof.
  unfold Row, WebsiteCell.
  destruct (website v) as [ url | ]; [ destruct (String.eqb url "") | ]; reflexivity.
Qed.

Lemma header_cells_SuccessView (d : ApiResponse) :
  map text_content (elements_by_tag "th" (SuccessView d))
  = [ "#"; "Validator Name"; "Website"; "Downtime"; "Incidents" ].
Proof.
  unfold SuccessView, array_map.
  cbn [elements_by_tag el el0 MetadataItem flat_map String.eqb Ascii.eqb Bool.eqb app].
  rewrite (flat_map_rows_nil (elements_by_tag "th")) by apply Row_no_th.
  reflexivity.
Qed.

(** X6: the table is rectangular: the header has the five columns "#",
    "Validator Name", "Website", "Downtime" and "Incidents", and every body
    row has five cells; the downtime cell of the row at position [i] shows
    [formatDowntime] of that validator's [minutes], and the incidents cell
    holds its [incidents] number unchanged. *)
Theorem rows_match_header (w : World) (r : Response) (d : ApiResponse) :
  fetch w endpoint = Fulfilled r -> ok r = true -> json r = Fulfilled (Some d) ->
  exists page,
    Home w = Fulfilled page
    /\ map text_content (elements_by_tag "th" page)
       = [ "#"; "Validator Name"; "Website"; "Downtime"; "Incidents" ]
    /\ (forall i row, nth_error (body_rows page) i = Some row ->
          length (children_of row) = length (elements_by_tag "th" page))
    /\ (forall i v, nth_error (data d) i = Some v ->
          exists row,
            nth_error (body_rows page) i = Some row
            /\ downtime_cell row
               = Some (el "td" "downtime" [ Text (formatDowntime (minutes v)) ])
            /\ incidents_cell row = Some (el "td" "incidents" [ Num (incidents v) ])).
Proof.
  intros Hf Hok Hj. exists (SuccessView d).
  split; [ exact (Home_success w r d Hf Hok Hj) | ].
  pose proof (header_cells_SuccessView d) as Hth.
  split; [ exact Hth | ].
  split.
  - intros i row Hrow.
    rewrite body_rows_SuccessView, array_map_nth_error in Hrow.
    destruct (nth_error (data d) i) as [ v | ]; [ | discriminate ].
    injection Hrow as <-.
    rewrite <- (length_map text_content (elements_by_tag "th" (SuccessView d))), Hth.
    reflexivity.
  - intros i v Hv. exists (Row v i).
    rewrite body_rows_SuccessView, array_map_nth_error, Hv.
    split; [ reflexivity | ]. apply (Row_cells v i).
Qed.

Lemma rows_match_header_witness :
  exists page,
    Home Samples.w_ok = Fulfilled page
    /\ map (fun row => length (children_of row)) (body_rows page) = [ 5; 5; 5 ]%nat
    /\ map downtime_cell (body_rows page)
       = [ Some (el "td" "downtime" [ Text "2h 5m" ]);
           Some (el "td" "downtime" [ Text "60m" ]);
           Some (el "td" "downtime" [ Text "0m" ]) ].
Proof.
  destruct (rows_match_header Samples.w_ok Samples.resp_ok Samples.board
              eq_refl eq_refl eq_refl) as [page [H1 _]].
  exists page. split; [ exact H1 | ].
  injection H1 as <-. split; vm_compute; reflexivity.
Defined.

Lemma map_from_keys (l : list Validator) (i : nat) :
  map key_of (map_from Row i l) = map Some (seq i (length l)).
Proof.
  revert i. induction l as [ | v l IH ]; intros i; [ reflexivity | ].
  cbn [map_from map length seq]. rewrite IH. reflexivity.
Qed.

Lemma NoDup_map_Some {A : Type} (l : list A) : NoDup l -> NoDup (map Some l).
Proof.
  induction 1 as [ | a l Hin Hnd IH ]; cbn [map]; constructor; [ | assumption ].
  intros H. apply in_map_iff in H. destruct H as [b [Hb Hin']].
  injection Hb as ->. contradiction.
Qed.

(** X7: the keys of the body rows are the positions 0, 1, ..., n-1 of the
    validators, so no two rows of a page share a key. *)
Theorem row_keys_are_positions (w : World) (r : Response) (d : ApiResponse) :
  fetch w endpoint = Fulfilled r -> ok r = true -> json r = Fulfilled (Some d) ->
  exists page,
    Home w = Fulfilled page
    /\ map key_of (body_rows page) = map Some (seq 0 (length (data d)))
    /\ NoDup (map key_of (body_rows page)).
Proof.
  intros Hf Hok Hj. exists (SuccessView d).
  split; [ exact (Home_success w r d Hf Hok Hj) | ].
  rewrite body_rows_SuccessView. unfold array_map. rewrite map_from_keys.
  split; [ reflexivity | ].
  apply NoDup_map_Some, seq_NoDup.
Qed.

Lemma row_keys_are_positions_witness :
  exists page,
    Home Samples.w_ok = Fulfilled page
    /\ map key_of (body_rows page) = [ Some 0; Some 1; Some 2 ]%nat.
Proof.
  destruct (row_keys_are_positions Samples.w_ok Samples.resp_ok Samples.board
              eq_refl eq_refl eq_refl) as [page [H1 [H2 _]]].
  exists page. split; [ exact H1 | exact H2 ].
Defined.

(** X8: for every successful response, whatever its [data], the header
    shows the three metadata values as they came in, and the number of
    body rows is the length of [data]: [total_validators] is shown even
    when it differs from that length. *)
Theorem metadata_shown_unchecked (w : World) (r : Response) (d : ApiResponse) :
  fetch w endpoint = Fulfilled r -> ok r = true -> json r = Fulfilled (Some d) ->
  exists page,
    Home w = Fulfilled page
    /\ map children_of (elements_by_class "metadata-value" page)
       = [ [ Num (total_validators (metadata d)) ];
           [ Text (time_window (metadata d)) ];
           [ Text (as_of (metadata d)) ] ]
    /\ map text_content (elements_by_class "metadata-label" page)
       = [ "Total Validators"; "Time Window"; "Last Updated" ]
    /\ length (body_rows page) = length (data d).
Proof.
  intros Hf Hok Hj. exists (SuccessView d).
  split; [ exact (Home_success w r d Hf Hok Hj) | ].
  split; [ apply metadata_values_SuccessView | ].
  split.
  - unfold SuccessView, array_map.
    cbn [elements_by_class el el0 MetadataItem flat_map existsb fst snd
         String.eqb Ascii.eqb Bool.eqb andb orb app].
    rewrite (flat_map_rows_nil (elements_by_class "metadata-label")).
    + reflexivity.
    + intros v k. unfold Row, WebsiteCell.
      destruct (website v) as [ url | ]; [ destruct (String.eqb url "") | ]; reflexivity.
  - rewrite body_rows_SuccessView. apply map_from_length.
Qed.

Lemma metadata_shown_unchecked_witness :
  exists page,
    Home MoreSamples.w_7 = Fulfilled page
    /\ map children_of (elements_by_class "metadata-value" page)
       = [ [ Num (of_Z 7) ]; [ Text "7 days" ]; [ Text "yesterday" ] ]
    /\ length (body_rows page) = 2%nat.
Proof.
  destruct (metadata_shown_unchecked MoreSamples.w_7 MoreSamples.resp_7
              MoreSamples.board_7 eq_refl eq_refl eq_refl)
    as [page [H1 [H2 [_ H3]]]].
  exists page. split; [ exact H1 | split; [ exact H2 | exact H3 ] ].
Defined.

(** ** The page inside the root layout *)

Lemma SuccessView_no_html_body (d : ApiResponse) :
  elements_by_tag "html" (SuccessView d) = []
  /\ elements_by_tag "body" (SuccessView d) = [].
Proof.
  assert (H : forall t, t = "html" \/ t = "body" ->
                forall v k, elements_by_tag t (Row v k) = []).
  { intros t [ -> | -> ] v k; unfold Row, WebsiteCell;
      (destruct (website v) as [ url | ]; [ destruct (String.eqb url "") | ]; reflexivity). }
  split; unfold SuccessView, array_map;
    cbn [elements_by_tag el el0 MetadataItem flat_map String.eqb Ascii.eqb Bool.eqb app].
  - rewrite (flat_map_rows_nil (elements_by_tag "html")) by (apply H; left; reflexivity).
    reflexivity.
  - rewrite (flat_map_rows_nil (elements_by_tag "body")) by (apply H; right; reflexivity).
    reflexivity.
Qed.

Lemma Home_no_html_body (w : World) (page : ReactNode) :
  Home w = Fulfilled page ->
  elements_by_tag "html" page = [] /\ elements_by_tag "body" page = [].
Proof.
  intros H.
  destruct (getData w) as [ [ d | ] | reason ] eqn:Hg.
  - rewrite (Home_data w d Hg) in H. injection H as <-. apply SuccessView_no_html_body.
  - rewrite (Home_null w Hg) in H. injection H as <-. split; reflexivity.
  - rewrite (Home_rejected w reason Hg) in H. injection H as <-. split; reflexivity.
Qed.

(** X9: the root layout wraps the page of [Home] in one [html] element
    with [lang="en"] and one [body] whose only child is the page; the text,
    the body rows and the error elements of the document are those of the
    page. *)
Theorem RootLayout_keeps_page (w : World) (page : ReactNode) :
  Home w = Fulfilled page ->
  let doc := RootLayout [ page ] in
  map (attribute "lang") (elements_by_tag "html" doc) = [ Some "en" ]
  /\ map children_of (elements_by_tag "body" doc) = [ [ page ] ]
  /\ text_content doc = text_content page
  /\ body_rows doc = body_rows page
  /\ elements_by_class "error" doc = elements_by_class "error" page
  /\ elements_by_tag "table" doc = elements_by_tag "table" page.
Proof.
  intros H doc. destruct (Home_no_html_body w page H) as [Hh Hb].
  unfold doc, RootLayout, body_rows.
  cbn [elements_by_tag elements_by_class flat_map existsb fst snd
       String.eqb Ascii.eqb Bool.eqb andb orb app text_content map String.concat].
  rewrite Hh, Hb, !app_nil_r. cbn [map app attribute find fst snd option_map
                                    String.eqb Ascii.eqb Bool.eqb children_of].
  repeat (split; [ reflexivity | ]). reflexivity.
Qed.

Lemma RootLayout_keeps_page_witness :
  text_content (RootLayout [ ErrorView (Some "Failed to fetch data") ])
  = "Error loading data: Failed to fetch data".
Proof.
  exact (proj1 (proj2 (proj2
    (RootLayout_keeps_page Samples.w_503 (ErrorView (Some "Failed to fetch data"))
       eq_refl)))).
Defined.

(** * [formatDowntime] below zero *)

Module Negative.

Lemma lt_zero_cases (x : number) :
  lt x (of_Z 0) = true ->
  x = S754_infinity true \/ exists m e, x = S754_finite true m e.
Proof.
  rewrite Rounding.zero_eq. unfold lt, SFltb, SFcompare.
  destruct x as [ s | s | | s m e ]; try discriminate.
  - destruct s; [ left; reflexivity | discriminate ].
  - destruct s; [ right; exists m, e; reflexivity | discriminate ].
Qed.

Lemma floor_sign (v : number) : has_sign true v -> has_sign true (JsNumber.floor v).
Proof.
  destruct v as [ s | s | | s m e ]; unfold has_sign, JsNumber.floor; intros H;
    try assumption.
  subst s.
  destruct (0 <=? e); [ reflexivity | ].
  destruct (Z.land (Zpos m) (Z.ones (- e)) =? 0); [ reflexivity | ].
  assert (Hq : 0 <= Z.shiftr (Zpos m) (- e)) by (apply Z.shiftr_nonneg; lia).
  destruct (- (Z.shiftr (Zpos m) (- e) + 1)) as [ | p | p ] eqn:E; try lia.
  cbn [binary_normalize]. apply Rounding.binary_round_sign.
Qed.

Lemma round_sign (v : number) : has_sign true v -> has_sign true (JsNumber.round v).
Proof.
  destruct v as [ s | s | | s m e ]; unfold has_sign, JsNumber.round; intros H;
    try assumption.
  subst s.
  destruct (0 <=? e); [ reflexivity | ].
  destruct (Z.land (Zpos m) (Z.ones (- e)) =? 0); [ reflexivity | ].
  assert (Hq : 0 <= Z.shiftr (Zpos m) (- e)) by (apply Z.shiftr_nonneg; lia).
  set (z := if Z.shiftl 1 (- e - 1) <? Z.land (Zpos m) (Z.ones (- e))
            then Z.shiftr (Zpos m) (- e) + 1 else Z.shiftr (Zpos m) (- e)).
  assert (Hz : 0 <= z) by (unfold z; destruct (_ <? _); lia).
  destruct (- z) as [ | p | p ] eqn:E; try lia; cbn [binary_normalize].
  - reflexivity.
  - apply Rounding.binary_round_sign.
Qed.

Lemma gt_zero_sign (v : number) : has_sign true v -> gt v (of_Z 0) = false.
Proof.
  rewrite Rounding.zero_eq. unfold gt, SFltb, SFcompare.
  destruct v as [ s | s | | s m e ]; unfold has_sign; intros H;
    try reflexivity; subst s; reflexivity.
Qed.

Lemma div_sign (x : number) :
  lt x (of_Z 0) = true -> has_sign true (div x sixty).
Proof.
  intros H. rewrite Rounding.sixty_eq.
  destruct (lt_zero_cases x H) as [ -> | (m & e & ->) ].
  - reflexivity.
  - unfold div, SFdiv.
    destruct (SFdiv_core_binary prec emax (Zpos m) e (Zpos m60) (-47)) as [[mz ez] lz].
    apply (Rounding.binary_round_aux_sign true).
Qed.

Lemma rem_negative_sign (x : number) :
  lt x (of_Z 0) = true -> has_sign true (rem x sixty).
Proof.
  intros H. rewrite Rounding.sixty_eq.
  destruct (lt_zero_cases x H) as [ -> | (m & e & ->) ].
  - exact I.
  - unfold rem.
    set (e0 := Z.min e (-47)).
    set (N := Z.shiftl (Zpos m) (e - e0)).
    set (D := Z.shiftl (Zpos m60) (-47 - e0)).
    assert (HD : 0 < D).
    { unfold D. rewrite Z.shiftl_mul_pow2 by lia.
      assert (0 < 2 ^ (-47 - e0)) by (apply Rounding.pow2_pos; lia). lia. }
    pose proof (Z.mod_pos_bound N D HD) as Hr.
    cbn [cond_Zopp].
    destruct (- (N mod D)) as [ | p | p ] eqn:E; try lia; cbn [binary_normalize].
    + reflexivity.
    + apply Rounding.binary_round_sign.
Qed.

End Negative.

(** X10: for every [minutes < 0], finite or not, no hours are shown,
    whatever the magnitude: the result is the rounded remainder followed by
    "m", and that remainder is never positive (so -125 gives "-5m"). *)
Theorem formatDowntime_negative (x : number) :
  lt x (of_Z 0) = true ->
  gt (JsNumber.floor (div x (of_Z 60))) (of_Z 0) = false
  /\ formatDowntime x = toString (JsNumber.round (rem x (of_Z 60))) ++ "m"
  /\ contains "h" (formatDowntime x) = false
  /\ gt (JsNumber.round (rem x (of_Z 60))) (of_Z 0) = false.
Proof.
  intros H. fold sixty.
  assert (Hh : gt (JsNumber.floor (div x sixty)) (of_Z 0) = false).
  { apply Negative.gt_zero_sign, Negative.floor_sign, Negative.div_sign. exact H. }
  assert (Hm : has_sign true (JsNumber.round (rem x sixty))).
  { apply Negative.round_sign, Negative.rem_negative_sign. exact H. }
  split; [ exact Hh | ].
  rewrite formatDowntime_eq, Hh.
  split; [ reflexivity | ].
  split; [ | apply Negative.gt_zero_sign; exact Hm ].
  rewrite Chars.contains_app. cbn [contains Ascii.eqb Bool.eqb orb].
  rewrite orb_false_r.
  destruct (JsNumber.round (rem x sixty)) as [ s | s | | s m e ]; try reflexivity.
  - destruct s; reflexivity.
  - cbn [toString].
    pose proof (Chars.all_in_contains number_char "h" _
                  (Chars.toString_number_chars m e) eq_refl) as Hc.
    destruct s; [ | exact Hc ].
    rewrite Chars.contains_app, Hc. reflexivity.
Qed.

Lemma formatDowntime_negative_witness :
  formatDowntime (SFopp (of_Z 125)) = "-5m".
Proof.
  assert (H := proj1 (proj2 (formatDowntime_negative (SFopp (of_Z 125)) eq_refl))).
  rewrite H. vm_compute. reflexivity.
Defined.

(** * The minutes component *)

Module Exact.

Import Rounding.

Lemma Zdigits2_unique (n d : Z) :
  0 < n -> 2 ^ (d - 1) <= n < 2 ^ d -> 1 <= d -> Zdigits2 n = d.
Proof.
  intros Hn [Hlo Hhi] Hd.
  pose proof (Zdigits2_le n d ltac:(lia) ltac:(lia) Hhi).
  pose proof (Zdigits2_gt n (d - 1) ltac:(lia) Hlo).
  lia.
Qed.

Lemma Zdigits2_mul_pow2 (m k : Z) :
  0 < m -> 0 <= k -> Zdigits2 (m * 2 ^ k) = Zdigits2 m + k.
Proof.
  intros Hm Hk.
  destruct (Zdigits2_bounds m Hm) as [Hlo Hhi].
  pose proof (Zdigits2_pos m Hm) as Hd.
  pose proof (pow2_pos k Hk) as Hp.
  apply Zdigits2_unique; [ nia | | lia ].
  replace (Zdigits2 m + k - 1) with (Zdigits2 m - 1 + k) by lia.
  rewrite !pow2_split by lia. split; nia.
Qed.

Lemma shl_align_spec (p : positive) (e e' : Z) :
  snd (shl_align p e e') = Z.min e e'
  /\ Zpos (fst (shl_align p e e')) = Zpos p * 2 ^ (e - Z.min e e').
Proof.
  unfold shl_align.
  destruct (e' - e) as [ | k | k ] eqn:E; cbn [fst snd].
  - replace (Z.min e e') with e by lia. rewrite Z.sub_diag. split; lia.
  - replace (Z.min e e') with e by lia. rewrite Z.sub_diag. split; lia.
  - replace (Z.min e e') with e' by lia. rewrite iter_xO.
    replace (e - e') with (Zpos k) by lia. split; reflexivity.
Qed.

Lemma shr_fexp_id (m e : Z) (l : location) :
  fexp prec emax (Zdigits2 m + e) - e <= 0 ->
  shr_fexp prec emax m e l = (shr_record_of_loc m l, e).
Proof.
  intros H. unfold shr_fexp, shr.
  destruct (fexp prec emax (Zdigits2 m + e) - e); try reflexivity. lia.
Qed.

(** A canonical mantissa and exponent are left as they are. *)
Lemma binary_round_aux_exact (s : bool) (m : positive) (e : Z) :
  fexp prec emax (Zpos (digits2_pos m) + e) = e -> e <= 971 ->
  binary_round_aux prec emax s (Zpos m) e loc_Exact = S754_finite s m e.
Proof.
  intros Hc He. rewrite binary_round_aux_eq. cbv zeta.
  assert (H0 : fexp prec emax (Zdigits2 (Zpos m) + e) - e <= 0).
  { change (Zdigits2 (Zpos m)) with (Zpos (digits2_pos m)). lia. }
  rewrite (shr_fexp_id (Zpos m) e loc_Exact H0). cbn [fst snd].
  cbn [shr_record_of_loc shr_m loc_of_shr_record round_nearest_even].
  rewrite (shr_fexp_id (Zpos m) e loc_Exact H0). cbn [fst snd shr_record_of_loc shr_m].
  change (emax - prec) with 971.
  destruct (Z.leb_spec e 971); [ reflexivity | lia ].
Qed.

(** A mantissa of at most 53 digits at an exponent of at least -1074 is
    represented exactly. *)
Lemma binary_round_exact (s : bool) (p : positive) (e : Z) :
  Zpos (digits2_pos p) <= 53 -> -1074 <= e <= 971 ->
  exists m,
    binary_round prec emax s p e = S754_finite s m (fexp prec emax (Zpos (digits2_pos p) + e))
    /\ Zpos m = Zpos p * 2 ^ (e - fexp prec emax (Zpos (digits2_pos p) + e))
    /\ fexp prec emax (Zpos (digits2_pos p) + e) <= e.
Proof.
  intros Hd He. unfold binary_round.
  set (e' := fexp prec emax (Zpos (digits2_pos p) + e)).
  assert (He' : e' <= e) by (unfold e'; rewrite fexp_eq; lia).
  destruct (shl_align_spec p e e') as [E2 E1].
  destruct (shl_align p e e') as [mz ez]. cbn [fst snd] in E1, E2.
  rewrite Z.min_r in E1, E2 by assumption. subst ez.
  exists mz. split; [ | split; assumption ].
  apply binary_round_aux_exact; [ | lia ].
  change (Zpos (digits2_pos mz)) with (Zdigits2 (Zpos mz)).
  rewrite E1, Zdigits2_mul_pow2 by lia.
  change (Zdigits2 (Zpos p)) with (Zpos (digits2_pos p)).
  replace (Zpos (digits2_pos p) + (e - e') + e') with (Zpos (digits2_pos p) + e) by lia.
  reflexivity.
Qed.

Lemma digits_le_53 (n : Z) : 0 < n -> n < 2 ^ 53 -> Zdigits2 n <= 53.
Proof. intros Hn Hlt. apply Zdigits2_le; lia. Qed.

(** [x % 60] for a finite [x > 0]: zero, or a canonical number below 60. *)
Lemma rem_below_sixty (mx : positive) (ex : Z) :
  bounded prec emax mx ex = true ->
  rem (S754_finite false mx ex) sixty = S754_zero false
  \/ exists m e,
       rem (S754_finite false mx ex) sixty = S754_finite false m e
       /\ e < 0 /\ Zpos m < 60 * 2 ^ (- e)
       /\ fexp prec emax (Zpos (digits2_pos m) + e) = e.
Proof.
  intros Hb. destruct (bounded_inv mx ex Hb) as [Hc He].
  pose proof (digits2_le_53 mx ex Hb) as Hmx.
  rewrite sixty_eq. unfold rem.
  set (e0 := Z.min ex (-47)).
  rewrite !Z.shiftl_mul_pow2 by lia.
  set (N := Zpos mx * 2 ^ (ex - e0)).
  set (D := Zpos m60 * 2 ^ (-47 - e0)).
  assert (Hp : 0 < 2 ^ (-47 - e0)) by (apply pow2_pos; lia).
  assert (HD : 0 < D) by (unfold D; lia).
  pose proof (Z.mod_pos_bound N D HD) as Hr.
  assert (HD60 : D = 60 * 2 ^ (- e0)).
  { unfold D. rewrite m60_eq.
    replace (- e0) with (47 + (-47 - e0)) by lia.
    rewrite pow2_split by lia. lia. }
  assert (HR53 : N mod D < 2 ^ 53).
  { destruct (Z_le_gt_dec (-47) ex) as [Hge | Hlt].
    - assert (e0 = -47) by lia.
      assert (D = Zpos m60) by (unfold D; replace (-47 - e0) with 0 by lia; lia).
      pose proof m60_eq. lia.
    - assert (e0 = ex) by lia.
      assert (N = Zpos mx) by (unfold N; replace (ex - e0) with 0 by lia; lia).
      assert (N mod D <= N) by (apply Z.mod_le; lia).
      lia. }
  cbn [cond_Zopp].
  destruct (N mod D) as [ | p | p ] eqn:ER; try lia; cbn [binary_normalize].
  - left. reflexivity.
  - right.
    assert (Hdp : Zpos (digits2_pos p) <= 53) by (apply (digits_le_53 (Zpos p)); lia).
    destruct (binary_round_exact false p e0 Hdp ltac:(lia)) as (m & Em & Hm & Hle).
    set (e := fexp prec emax (Zpos (digits2_pos p) + e0)) in *.
    exists m, e. split; [ exact Em | ].
    assert (Hpe : 0 < 2 ^ (e0 - e)) by (apply pow2_pos; lia).
    split; [ lia | ]. split.
    + rewrite Hm. replace (- e) with (- e0 + (e0 - e)) by lia.
      rewrite pow2_split by lia. nia.
    + change (Zpos (digits2_pos m)) with (Zdigits2 (Zpos m)).
      rewrite Hm, Zdigits2_mul_pow2 by lia.
      change (Zdigits2 (Zpos p)) with (Zpos (digits2_pos p)).
      replace (Zpos (digits2_pos p) + (e0 - e) + e) with (Zpos (digits2_pos p) + e0) by lia.
      reflexivity.
Qed.

(** A canonical number that is a whole number [q] below [2^53] is [of_Z q]. *)
Lemma canonical_integer (m : positive) (e q : Z) :
  e < 0 -> 0 < q -> q < 2 ^ 53 -> Zpos m = q * 2 ^ (- e) ->
  fexp prec emax (Zpos (digits2_pos m) + e) = e ->
  S754_finite false m e = of_Z q.
Proof.
  intros He Hq Hq53 Hm Hc.
  destruct q as [ | p | p ]; try lia.
  unfold of_Z. cbn [binary_normalize].
  assert (Hdp : Zpos (digits2_pos p) <= 53) by (apply (digits_le_53 (Zpos p)); lia).
  destruct (binary_round_exact false p 0 Hdp ltac:(lia)) as (m' & Em & Hm' & Hle).
  rewrite Em.
  assert (Hde : Zpos (digits2_pos m) + e = Zpos (digits2_pos p) + 0).
  { change (Zpos (digits2_pos m)) with (Zdigits2 (Zpos m)).
    rewrite Hm, Zdigits2_mul_pow2 by lia.
    change (Zdigits2 (Zpos p)) with (Zpos (digits2_pos p)). lia. }
  rewrite <- Hde, Hc in *.
  replace (0 - e) with (- e) in Hm' by lia.
  f_equal. apply Pos2Z.inj. lia.
Qed.

(** [Math.round] of a canonical number below 60 is a whole number from 0
    to 60. *)
Lemma round_below_sixty (m : positive) (e : Z) :
  e < 0 -> Zpos m < 60 * 2 ^ (- e) ->
  fexp prec emax (Zpos (digits2_pos m) + e) = e ->
  exists z, 0 <= z <= 60 /\ JsNumber.round (S754_finite false m e) = of_Z z.
Proof.
  intros He Hlt Hc. unfold JsNumber.round.
  destruct (Z.leb_spec 0 e) as [ | _ ]; [ lia | ].
  rewrite Z.land_ones, Z.shiftr_div_pow2 by lia.
  assert (Hp : 0 < 2 ^ (- e)) by (apply pow2_pos; lia).
  assert (Hq : 0 <= Zpos m / 2 ^ (- e) < 60).
  { split; [ apply Z.div_pos; lia | apply Z.div_lt_upper_bound; lia ]. }
  pose proof (Z.div_mod (Zpos m) (2 ^ (- e)) ltac:(lia)) as Hdm.
  destruct (Z.eqb_spec (Zpos m mod 2 ^ (- e)) 0) as [Hr | Hr].
  - exists (Zpos m / 2 ^ (- e)). split; [ lia | ].
    assert (Zpos m / 2 ^ (- e) <> 0) by nia.
    apply canonical_integer; try assumption; lia.
  - exists (if Z.shiftl 1 (- e - 1) <=? Zpos m mod 2 ^ (- e)
            then Zpos m / 2 ^ (- e) + 1 else Zpos m / 2 ^ (- e)).
    split; [ destruct (_ <=? _); lia | reflexivity ].
Qed.

Lemma toString_upto_sixty :
  forallb (fun n => String.eqb (toString (of_Z (Z.of_nat n))) (decimal (Z.of_nat n)))
          (seq 0 61) = true.
Proof. vm_compute. reflexivity. Qed.

Lemma toString_small (z : Z) : 0 <= z <= 60 -> toString (of_Z z) = decimal z.
Proof.
  intros Hz. pose proof toString_upto_sixty as H.
  rewrite forallb_forall in H.
  specialize (H (Z.to_nat z)). rewrite Z2Nat.id in H by lia.
  apply String.eqb_eq, H, in_seq. lia.
Qed.

End Exact.

(** X11: for every finite [minutes >= 0], the minutes component is a whole
    number from 0 to 60, written in plain decimal digits; below 60 minutes
    the whole result is that number followed by "m". *)
Theorem minutes_component_range (x : number) :
  is_double x = true -> ge x (of_Z 0) = true -> x <> Infinity ->
  exists z,
    0 <= z <= 60
    /\ toString (JsNumber.round (rem x (of_Z 60))) = decimal z
    /\ (lt x (of_Z 60) = true -> formatDowntime x = decimal z ++ "m").
Proof.
  intros Hv Hx Hfin.
  destruct (formatDowntime_components x Hv Hx) as (_ & _ & Hgt & Hlt).
  fold sixty.
  assert (Hfmt : forall s, toString (JsNumber.round (rem x sixty)) = s ->
                   lt x sixty = true -> formatDowntime x = s ++ "m").
  { intros s Hs Hl. rewrite Hlt in Hl.
    rewrite formatDowntime_eq, Hgt, Hs.
    destruct (ge x sixty); [ discriminate | reflexivity ]. }
  assert (H : exists z, 0 <= z <= 60
                /\ toString (JsNumber.round (rem x sixty)) = decimal z).
  { destruct x as [ s | s | | s m e ]; try discriminate.
    - exists 0. split; [ lia | ]. rewrite Rounding.sixty_eq. reflexivity.
    - destruct s; [ discriminate | ]. contradiction Hfin. reflexivity.
    - destruct s; [ discriminate | ].
      assert (Hb : bounded prec emax m e = true) by exact Hv.
      destruct (Exact.rem_below_sixty m e Hb) as [ -> | (m' & e' & -> & He & Hm & Hc) ].
      + exists 0. split; [ lia | reflexivity ].
      + destruct (Exact.round_below_sixty m' e' He Hm Hc) as (z & Hz & ->).
        exists z. split; [ exact Hz | apply Exact.toString_small; exact Hz ]. }
  destruct H as (z & Hz & Hs).
  exists z. split; [ exact Hz | ]. split; [ exact Hs | apply Hfmt; exact Hs ].
Qed.

Lemma minutes_component_range_witness :
  exists z,
    0 <= z <= 60
    /\ toString (JsNumber.round (rem (of_ratio 596 10) (of_Z 60))) = decimal z
    /\ formatDowntime (of_ratio 596 10) = decimal z ++ "m".
Proof.
  destruct (minutes_component_range (of_ratio 596 10) eq_refl eq_refl)
    as (z & Hz & Hs & Hf).
  - discriminate.
  - exists z. split; [ exact Hz | ]. split; [ exact Hs | ].
    apply Hf. vm_compute. reflexivity.
Defined.

(** * Whole minutes *)

Module Whole.

Import Rounding.

Lemma Zdigits2_div_pow2 (m j : Z) :
  0 < m -> 0 <= j < Zdigits2 m -> Zdigits2 (m / 2 ^ j) = Zdigits2 m - j.
Proof.
  intros Hm Hj.
  destruct (Zdigits2_bounds m Hm) as [Hlo Hhi].
  pose proof (pow2_pos j ltac:(lia)) as Hp.
  assert (Hq : 2 ^ (Zdigits2 m - j - 1) <= m / 2 ^ j).
  { apply Z.div_le_lower_bound; [ assumption | ].
    rewrite <- pow2_split by lia.
    replace (j + (Zdigits2 m - j - 1)) with (Zdigits2 m - 1) by lia. assumption. }
  assert (0 < 2 ^ (Zdigits2 m - j - 1)) by (apply pow2_pos; lia).
  apply Exact.Zdigits2_unique; [ lia | | lia ].
  split; [ assumption | ].
  apply Z.div_lt_upper_bound; [ assumption | ].
  rewrite <- pow2_split by lia.
  replace (j + (Zdigits2 m - j)) with (Zdigits2 m) by lia. assumption.
Qed.

(** The number of a whole [n] below [2^53]: its canonical mantissa and
    exponent. *)
Lemma of_Z_canonical (n : Z) :
  0 < n < 2 ^ 53 ->
  exists m e,
    of_Z n = S754_finite false m e
    /\ e = Zdigits2 n - 53
    /\ Zpos m = n * 2 ^ (- e)
    /\ bounded prec emax m e = true.
Proof.
  intros Hn. destruct n as [ | p | p ]; try lia.
  assert (Hd : Zpos (digits2_pos p) <= 53) by (apply (Exact.digits_le_53 (Zpos p)); lia).
  destruct (Exact.binary_round_exact false p 0 Hd ltac:(lia)) as (m & Em & Hm & Hle).
  rewrite fexp_eq in *.
  assert (Hdp : 0 < Zpos (digits2_pos p)) by lia.
  replace (Z.max (Zpos (digits2_pos p) + 0 - 53) (-1074))
    with (Zpos (digits2_pos p) - 53) in * by lia.
  exists m, (Zpos (digits2_pos p) - 53).
  split; [ exact Em | ]. split; [ reflexivity | ].
  replace (0 - (Zpos (digits2_pos p) - 53)) with (- (Zpos (digits2_pos p) - 53)) in Hm by lia.
  split; [ exact Hm | ].
  unfold bounded, canonical_mantissa. rewrite fexp_eq.
  change (Zpos (digits2_pos m)) with (Zdigits2 (Zpos m)).
  rewrite Hm, Exact.Zdigits2_mul_pow2 by lia.
  change (Zdigits2 (Zpos p)) with (Zpos (digits2_pos p)).
  change (emax - prec) with 971.
  apply andb_true_intro. split; [ apply Z.eqb_eq | apply Z.leb_le ]; lia.
Qed.

(** [Math.round] leaves a whole number as it is. *)
Lemma round_whole (n : Z) : 0 <= n < 2 ^ 53 -> JsNumber.round (of_Z n) = of_Z n.
Proof.
  intros Hn. destruct (Z.eq_dec n 0) as [ -> | Hne ]; [ reflexivity | ].
  destruct (of_Z_canonical n ltac:(lia)) as (m & e & -> & He & Hm & _).
  unfold JsNumber.round.
  destruct (Z.leb_spec 0 e) as [ | Hneg ]; [ reflexivity | ].
  rewrite Z.land_ones by lia.
  rewrite Hm, Z.mod_mul by (pose proof (pow2_pos (- e) ltac:(lia)); lia).
  reflexivity.
Qed.

(** [n % 60] for a whole [n]: the number of [n mod 60]. *)
Lemma rem_whole (n : Z) : 0 <= n < 2 ^ 53 -> rem (of_Z n) sixty = of_Z (n mod 60).
Proof.
  intros Hn. destruct (Z.eq_dec n 0) as [ -> | Hne ].
  { rewrite sixty_eq. reflexivity. }
  destruct (of_Z_canonical n ltac:(lia)) as (m & e & -> & He & Hm & Hb).
  pose proof (digits2_le_53 m e Hb) as Hm53.
  pose proof (Zdigits2_pos n ltac:(lia)) as Hdn.
  pose proof (Zdigits2_le n 53 ltac:(lia) ltac:(lia) ltac:(lia)) as Hdn'.
  rewrite sixty_eq. unfold rem.
  set (e0 := Z.min e (-47)).
  rewrite !Z.shiftl_mul_pow2 by lia.
  assert (Hp0 : 0 < 2 ^ (- e0)) by (apply pow2_pos; lia).
  assert (HN : Zpos m * 2 ^ (e - e0) = n * 2 ^ (- e0)).
  { rewrite Hm. replace (- e0) with (- e + (e - e0)) by lia.
    rewrite pow2_split by lia. lia. }
  assert (HD : Zpos m60 * 2 ^ (-47 - e0) = 60 * 2 ^ (- e0)).
  { rewrite m60_eq. replace (- e0) with (47 + (-47 - e0)) by lia.
    rewrite pow2_split by lia. lia. }
  rewrite HN, HD, Z.mul_mod_distr_r by lia.
  pose proof (Z.mod_pos_bound n 60 ltac:(lia)) as Hrho.
  set (rho := n mod 60) in *.
  cbn [cond_Zopp].
  destruct (Z.eq_dec rho 0) as [ -> | Hrne ]; [ reflexivity | ].
  assert (HR53 : rho * 2 ^ (- e0) < 2 ^ 53).
  { destruct (Z_le_gt_dec (-47) e) as [Hge | Hlt].
    - replace e0 with (-47) by lia. change (2 ^ (- -47)) with (2 ^ 47). lia.
    - replace e0 with e in * by lia.
      assert (rho <= n) by (unfold rho; apply Z.mod_le; lia).
      nia. }
  destruct (rho * 2 ^ (- e0)) as [ | p | p ] eqn:ER; try nia.
  cbn [binary_normalize].
  assert (Hdp : Zpos (digits2_pos p) <= 53) by (apply (Exact.digits_le_53 (Zpos p)); lia).
  destruct (Exact.binary_round_exact false p e0 Hdp ltac:(lia)) as (m' & Em & Hm' & Hle).
  rewrite Em.
  set (e' := fexp prec emax (Zpos (digits2_pos p) + e0)) in *.
  assert (Hpe : 0 < 2 ^ (e0 - e')) by (apply pow2_pos; lia).
  apply Exact.canonical_integer; try lia.
  - rewrite Hm', <- ER. replace (- e') with (- e0 + (e0 - e')) by lia.
    rewrite pow2_split by lia. lia.
  - change (Zpos (digits2_pos m')) with (Zdigits2 (Zpos m')).
    rewrite Hm', Exact.Zdigits2_mul_pow2 by lia.
    change (Zdigits2 (Zpos p)) with (Zpos (digits2_pos p)).
    replace (Zpos (digits2_pos p) + (e0 - e') + e') with (Zpos (digits2_pos p) + e0) by lia.
    reflexivity.
Qed.

(** Rounding the quotient to the grid of step [1/P], [P >= 32], does not
    reach the next whole number: [n / 60] is at least [1/60] below it. *)
Lemma round_up_keeps_floor (M W S P n k m1 m2 : Z) :
  0 < W -> 0 < S -> 32 <= P -> W * P = 60 * S -> M = n * S ->
  60 * k <= n < 60 * (k + 1) -> 0 <= k ->
  m1 = M / W -> m1 <= m2 <= m1 + 1 ->
  (m2 <> m1 -> (2 * m1 + 1) * W <= 2 * M) ->
  k * P <= m2 < (k + 1) * P.
Proof.
  intros HW HS HP HWP HM Hn Hk Hm1 Hm2 Hup.
  assert (Hlo : k * P <= m1).
  { subst m1. apply Z.div_le_lower_bound; [ assumption | ].
    replace (W * (k * P)) with (k * (W * P)) by lia. rewrite HWP, HM. nia. }
  assert (Hhi : m1 < (k + 1) * P).
  { subst m1. apply Z.div_lt_upper_bound; [ assumption | ].
    replace (W * ((k + 1) * P)) with ((k + 1) * (W * P)) by lia. rewrite HWP, HM. nia. }
  split; [ lia | ].
  destruct (Z.eq_dec m2 m1) as [ -> | Hne ]; [ assumption | ].
  specialize (Hup Hne).
  destruct (Z_lt_le_dec m2 ((k + 1) * P)) as [ | Hge ]; [ assumption | exfalso ].
  assert (E1 : m1 = (k + 1) * P - 1) by lia.
  rewrite E1 in Hup.
  assert (E2 : (2 * ((k + 1) * P - 1) + 1) * W = 2 * (k + 1) * (W * P) - W) by lia.
  rewrite E2, HWP, HM in Hup.
  assert (H1 : 2 * S <= W) by nia.
  assert (H2 : 32 * W <= W * P) by nia.
  lia.
Qed.

Lemma shift_keeps_floor (k P P3 T m2 : Z) :
  0 < T -> 0 < P3 -> P = T * P3 ->
  k * P <= m2 < (k + 1) * P ->
  k * P3 <= m2 / T < (k + 1) * P3.
Proof.
  intros HT HP3 -> [Hlo Hhi]. split.
  - apply Z.div_le_lower_bound; [ assumption | ]. lia.
  - apply Z.div_lt_upper_bound; [ assumption | ]. lia.
Qed.

(** The quotient of a whole [n >= 60] by 60, as a number: a canonical
    number between [n / 60] and [n / 60 + 1]. *)
Lemma div_whole (n : Z) :
  60 <= n < 2 ^ 53 ->
  exists m3 e3,
    div (of_Z n) sixty = S754_finite false m3 e3
    /\ e3 < 0
    /\ n / 60 * 2 ^ (- e3) <= Zpos m3 < (n / 60 + 1) * 2 ^ (- e3)
    /\ fexp prec emax (Zpos (digits2_pos m3) + e3) = e3.
Proof.
  intros Hn.
  destruct (of_Z_canonical n ltac:(lia)) as (mx & ex & -> & Hex & Hmx & Hb).
  assert (Hd5 : 5 < Zdigits2 n) by (apply Zdigits2_gt; lia).
  pose proof (Zdigits2_le n 53 ltac:(lia) ltac:(lia) ltac:(lia)) as Hd53.
  destruct (bounded_inv mx ex Hb) as [Hc _].
  assert (Hdx : Zpos (digits2_pos mx) = 53) by lia.
  destruct (digits2_pos_bounds mx) as [Hmlo Hmhi]. rewrite Hdx in Hmlo, Hmhi.
  change (2 ^ (53 - 1)) with (2 ^ 52) in Hmlo.
  destruct (div_by_sixty mx ex Hb) as [Ediv _]. cbv zeta in Ediv.
  rewrite Hdx in Ediv.
  replace (Z.max (53 + ex - 59) (-1074)) with (ex - 6) in Ediv by lia.
  replace (ex + 47 - (ex - 6)) with 53 in Ediv by lia.
  rewrite Ediv. clear Ediv.
  set (M := Zpos mx * 2 ^ 53).
  set (k := n / 60).
  set (S := 2 ^ (53 - ex)).
  assert (HS : 0 < S) by (apply pow2_pos; lia).
  assert (HMS : M = n * S).
  { unfold M, S. rewrite Hmx. replace (53 - ex) with (- ex + 53) by lia.
    rewrite pow2_split by lia. lia. }
  pose proof (Z.div_mod n 60 ltac:(lia)) as Hdm.
  pose proof (Z.mod_pos_bound n 60 ltac:(lia)) as Hrho.
  fold k in Hdm.
  assert (Hk : 60 * k <= n < 60 * (k + 1)) by lia.
  assert (Hk1 : 1 <= k) by lia.
  assert (Hk48 : k + 1 <= 2 ^ 48) by lia.
  pose proof m60_eq as H60.
  set (q0 := M / Zpos m60).
  pose proof (Z.div_mod M (Zpos m60) ltac:(lia)) as HdM.
  pose proof (Z.mod_pos_bound M (Zpos m60) ltac:(lia)) as HrM.
  fold q0 in HdM.
  assert (Hq0lo : 2 ^ 52 <= q0) by (apply Z.div_le_lower_bound; unfold M; lia).
  assert (Hq0hi : q0 < 2 ^ (54 - ex)).
  { apply Z.div_lt_upper_bound; [ lia | ].
    replace (54 - ex) with (1 + (53 - ex)) by lia.
    rewrite pow2_split by lia. fold S. change (2 ^ 1) with 2. nia. }
  assert (Hdq : 53 <= Zdigits2 q0 <= 54 - ex).
  { split; [ pose proof (Zdigits2_gt q0 52 ltac:(lia) Hq0lo); lia
           | apply Zdigits2_le; lia ]. }
  assert (Hinv : shr_inv M (Zpos m60)
                   (shr_record_of_loc q0 (new_location (Zpos m60) (M mod Zpos m60)))).
  { unfold shr_inv. rewrite shr_record_of_loc_m, shr_record_of_loc_r.
    split; [ lia | ]. split; [ lia | ].
    intros Hup. apply new_location_upper in Hup; lia. }
  rewrite binary_round_aux_eq. cbv zeta.
  destruct (shr_fexp_spec M (Zpos m60) q0 (ex - 6) _ ltac:(lia) Hinv) as (Hinv1 & Em1 & Ee1).
  assert (Hj : shift_of q0 (ex - 6) = Zdigits2 q0 - 53).
  { unfold shift_of. rewrite fexp_eq. lia. }
  rewrite Hj in *.
  set (j := Zdigits2 q0 - 53) in *.
  set (r1 := shr_fexp prec emax q0 (ex - 6) (new_location (Zpos m60) (M mod Zpos m60))) in *.
  set (m1 := shr_m (fst r1)) in *.
  set (e1 := snd r1) in *.
  assert (He1 : -53 <= e1 <= -5) by lia.
  assert (Hpj : 0 < 2 ^ j) by (apply pow2_pos; lia).
  assert (Hdm1 : Zdigits2 m1 = 53).
  { rewrite Em1, Zdigits2_div_pow2 by lia. lia. }
  assert (Hm1pos : 0 < m1).
  { rewrite Em1. apply Z.div_str_pos. split; [ assumption | ].
    assert (2 ^ j <= 2 ^ 52) by (apply pow2_le; lia). lia. }
  destruct (Zdigits2_bounds m1 Hm1pos) as [Hm1lo _]. rewrite Hdm1 in Hm1lo.
  change (2 ^ (53 - 1)) with (2 ^ 52) in Hm1lo.
  set (P1 := 2 ^ (- e1)).
  assert (HP1 : 32 <= P1).
  { unfold P1. change 32 with (2 ^ 5). apply pow2_le. lia. }
  assert (HWP : 2 ^ j * Zpos m60 * P1 = 60 * S).
  { unfold P1, S. rewrite H60.
    replace (2 ^ j * (15 * 2 ^ 49) * 2 ^ (- e1)) with (15 * 2 ^ 49 * (2 ^ j * 2 ^ (- e1))) by lia.
    rewrite <- pow2_split by lia.
    replace (j + - e1) with (6 + - ex) by lia.
    replace (53 - ex) with (53 + - ex) by lia.
    rewrite !pow2_split by lia. lia. }
  set (m2 := round_nearest_even m1 (loc_of_shr_record (fst r1))).
  assert (Hm2 : k * P1 <= m2 < (k + 1) * P1).
  { destruct Hinv1 as (_ & _ & Hup1). fold m1 in Hup1.
    destruct (round_nearest_even_bounds m1 (loc_of_shr_record (fst r1))) as [Hb2 Hsame].
    fold m2 in Hb2, Hsame.
    apply (round_up_keeps_floor M (2 ^ j * Zpos m60) S P1 n k m1 m2);
      try assumption; try lia.
    - rewrite Em1. unfold q0. rewrite Z.div_div by lia.
      rewrite (Z.mul_comm (Zpos m60)). reflexivity.
    - intros Hne. apply Hup1.
      rewrite <- loc_of_shr_record_upper.
      destruct (upper_half (loc_of_shr_record (fst r1))); [ reflexivity | ].
      exfalso. apply Hne. apply Hsame. reflexivity. }
  assert (Hm2lo : 2 ^ 52 <= m2).
  { destruct (round_nearest_even_bounds m1 (loc_of_shr_record (fst r1))) as [Hb2 _].
    fold m2 in Hb2. lia. }
  assert (Hdm2 : 53 <= Zdigits2 m2 <= 48 - e1).
  { split; [ pose proof (Zdigits2_gt m2 52 ltac:(lia) Hm2lo); lia | ].
    apply Zdigits2_le; try lia.
    replace (48 - e1) with (48 + - e1) by lia. rewrite pow2_split by lia.
    fold P1. nia. }
  destruct (shr_fexp_m m2 e1 loc_Exact ltac:(lia)) as [Em3 Ee3].
  assert (Hj2 : shift_of m2 e1 = Zdigits2 m2 - 53).
  { unfold shift_of. rewrite fexp_eq. lia. }
  rewrite Hj2 in *.
  set (j2 := Zdigits2 m2 - 53) in *.
  assert (Hpj2 : 0 < 2 ^ j2) by (apply pow2_pos; lia).
  set (r2 := shr_fexp prec emax m2 e1 loc_Exact) in *.
  assert (He3 : -53 <= snd r2 <= -5) by lia.
  assert (HP13 : P1 = 2 ^ j2 * 2 ^ (- snd r2)).
  { unfold P1. rewrite <- pow2_split by lia. f_equal. lia. }
  assert (Hp3 : 0 < 2 ^ (- snd r2)) by (apply pow2_pos; lia).
  assert (Hm3 : k * 2 ^ (- snd r2) <= shr_m (fst r2) < (k + 1) * 2 ^ (- snd r2)).
  { rewrite Em3. apply (shift_keeps_floor k P1); assumption. }
  assert (Hm3pos : 0 < shr_m (fst r2)).
  { assert (1 * 2 ^ (- snd r2) <= k * 2 ^ (- snd r2))
      by (apply Z.mul_le_mono_nonneg_r; lia).
    lia. }
  assert (Hdm3 : Zdigits2 (shr_m (fst r2)) = 53).
  { rewrite Em3, Zdigits2_div_pow2 by lia. lia. }
  destruct (shr_m (fst r2)) as [ | m3 | m3 ] eqn:Er2; try lia.
  change (emax - prec) with 971.
  destruct (Z.leb_spec (snd r2) 971) as [ _ | ]; [ | lia ].
  exists m3, (snd r2).
  split; [ reflexivity | ]. split; [ lia | ]. split; [ exact Hm3 | ].
  change (Zpos (digits2_pos m3)) with (Zdigits2 (Zpos m3)).
  rewrite Hdm3, fexp_eq. lia.
Qed.

Lemma SFltb_finite_intro (mx my : positive) (ex ey : Z) :
  ex < ey \/ (ex = ey /\ Zpos mx < Zpos my) ->
  SFltb (S754_finite false mx ex) (S754_finite false my ey) = true.
Proof.
  unfold SFltb, SFcompare. intros [ H | [-> H] ].
  - rewrite (proj2 (Z.compare_lt_iff ex ey) H). reflexivity.
  - rewrite Z.compare_refl. fold (Pos.compare mx my).
    rewrite (proj2 (Pos.compare_lt_iff mx my)) by lia. reflexivity.
Qed.

(** [Math.floor] of that quotient is the number of [n / 60]. *)
Lemma hours_whole (n : Z) :
  0 <= n < 2 ^ 53 -> JsNumber.floor (div (of_Z n) sixty) = of_Z (n / 60).
Proof.
  intros Hn.
  destruct (Z_lt_le_dec n 60) as [Hlt | Hge].
  - rewrite Z.div_small by lia.
    destruct (Z.eq_dec n 0) as [ -> | Hne ]; [ rewrite sixty_eq; reflexivity | ].
    destruct (of_Z_canonical n ltac:(lia)) as (m & e & -> & He & Hm & Hb).
    assert (Hl : lt (S754_finite false m e) sixty = true).
    { pose proof (Zdigits2_le n 6 ltac:(lia) ltac:(lia) ltac:(change (2 ^ 6) with 64; lia)).
      unfold lt. rewrite sixty_eq. apply SFltb_finite_intro.
      destruct (Z_lt_le_dec e (-47)) as [ | He47 ]; [ left; assumption | right ].
      assert (E : e = -47) by lia.
      split; [ exact E | ].
      rewrite Hm, E, m60_eq. change (2 ^ (- -47)) with (2 ^ 47). lia. }
    pose proof (div_lt_sixty m e Hb Hl) as Hd.
    destruct (div (S754_finite false m e) sixty) as [ s' | s' | | s' m' e' ];
      try contradiction.
    + subst s'. reflexivity.
    + destruct Hd as [-> Hd]. apply floor_below_one. assumption.
  - destruct (div_whole n ltac:(lia)) as (m3 & e3 & -> & He3 & Hm3 & Hc).
    set (k := n / 60) in *.
    assert (Hk : 1 <= k < 2 ^ 53).
    { split; [ apply Z.div_le_lower_bound; lia | apply Z.div_lt_upper_bound; lia ]. }
    assert (Hp : 0 < 2 ^ (- e3)) by (apply pow2_pos; lia).
    assert (Hq : Zpos m3 / 2 ^ (- e3) = k).
    { symmetry. apply Z.div_unique with (Zpos m3 - k * 2 ^ (- e3)); lia. }
    unfold JsNumber.floor.
    destruct (Z.leb_spec 0 e3) as [ | _ ]; [ lia | ].
    rewrite Z.land_ones, Z.shiftr_div_pow2, Hq by lia.
    destruct (Z.eqb_spec (Zpos m3 mod 2 ^ (- e3)) 0) as [Hr | Hr].
    + apply Exact.canonical_integer; try lia; try assumption.
      pose proof (Z.div_mod (Zpos m3) (2 ^ (- e3)) ltac:(lia)). lia.
    + reflexivity.
Qed.

Lemma toString_upto_10000 :
  forallb (fun n => String.eqb (toString (of_Z (Z.of_nat n))) (decimal (Z.of_nat n)))
          (seq 0 (Z.to_nat 10000)) = true.
Proof. vm_compute. reflexivity. Qed.

(** A whole number below 10000 is shown by its decimal digits. *)
Lemma toString_whole_small (z : Z) : 0 <= z < 10000 -> toString (of_Z z) = decimal z.
Proof.
  intros Hz. pose proof toString_upto_10000 as H.
  rewrite forallb_forall in H.
  specialize (H (Z.to_nat z)). rewrite Z2Nat.id in H by lia.
  apply String.eqb_eq, H, in_seq. lia.
Qed.

Lemma gt_zero_whole (k : Z) :
  0 <= k < 2 ^ 53 -> gt (of_Z k) (of_Z 0) = (0 <? k).
Proof.
  intros Hk. destruct (Z.ltb_spec 0 k) as [Hpos | Hz].
  - destruct (of_Z_canonical k ltac:(lia)) as (m & e & -> & _). reflexivity.
  - replace k with 0 by lia. reflexivity.
Qed.

End Whole.

(** X12: for whole minutes [n] with [0 <= n < 2^53], the hours of
    [formatDowntime] are exactly the number [n / 60] and the minutes
    exactly [n mod 60]: the division by 60 in binary64 and its floor lose
    nothing.  The minutes are written in decimal digits, and the hours are
    shown exactly when [n >= 60]. *)
Theorem formatDowntime_whole (n : Z) :
  0 <= n < 2 ^ 53 ->
  JsNumber.floor (div (of_Z n) (of_Z 60)) = of_Z (n / 60)
  /\ JsNumber.round (rem (of_Z n) (of_Z 60)) = of_Z (n mod 60)
  /\ formatDowntime (of_Z n)
     = if 60 <=? n
       then toString (of_Z (n / 60)) ++ "h " ++ decimal (n mod 60) ++ "m"
       else decimal n ++ "m".
Proof.
  intros Hn. fold sixty.
  pose proof (Z.mod_pos_bound n 60 ltac:(lia)) as Hrho.
  assert (Hk : 0 <= n / 60 < 2 ^ 53).
  { split; [ apply Z.div_pos; lia | apply Z.div_lt_upper_bound; lia ]. }
  assert (Hh : JsNumber.floor (div (of_Z n) sixty) = of_Z (n / 60))
    by (apply Whole.hours_whole; exact Hn).
  assert (Hm : JsNumber.round (rem (of_Z n) sixty) = of_Z (n mod 60)).
  { rewrite Whole.rem_whole by exact Hn. apply Whole.round_whole. lia. }
  split; [ exact Hh | ]. split; [ exact Hm | ].
  rewrite formatDowntime_eq, Hh, Hm, Whole.gt_zero_whole by exact Hk.
  rewrite (Exact.toString_small (n mod 60)) by lia.
  destruct (Z.leb_spec 60 n) as [Hge | Hlt].
  - assert (0 < n / 60) by (apply Z.div_str_pos; lia).
    destruct (Z.ltb_spec 0 (n / 60)); [ reflexivity | lia ].
  - rewrite (Z.div_small n 60), (Z.mod_small n 60) by lia. reflexivity.
Qed.

Lemma formatDowntime_whole_witness :
  formatDowntime (of_Z 9007199254740991)
  = toString (of_Z 150119987579016) ++ "h " ++ decimal 31 ++ "m".
Proof.
  exact (proj2 (proj2 (formatDowntime_whole 9007199254740991 ltac:(lia)))).
Defined.

(** X13: for whole minutes [n] below 600000 (more than 416 days), the
    result of [formatDowntime] is ["{n / 60}h {n mod 60}m"] in plain decimal
    digits when [n >= 60], and ["{n}m"] when [n < 60]. *)
Theorem formatDowntime_whole_text (n : Z) :
  0 <= n < 600000 ->
  formatDowntime (of_Z n)
  = if 60 <=? n
    then decimal (n / 60) ++ "h " ++ decimal (n mod 60) ++ "m"
    else decimal n ++ "m".
Proof.
  intros Hn.
  destruct (formatDowntime_whole n ltac:(lia)) as (_ & _ & ->).
  rewrite Whole.toString_whole_small; [ reflexivity | ].
  split; [ apply Z.div_pos; lia | apply Z.div_lt_upper_bound; lia ].
Qed.

Lemma formatDowntime_whole_text_witness :
  formatDowntime (of_Z 43200) = "720h 0m".
Proof.
  exact (formatDowntime_whole_text 43200 ltac:(lia)).
Defined.
